(** * middlewared/plugins/service.py: readiness watcher, action dispatcher,
      status resolver and status aggregator

    A shallow embedding of [StartNotify] and of the dispatching part of
    [ServiceService], followed by the properties of the design document
    that concern them.

    Conventions.
    - Time is counted in tenths of the source's time unit (seconds), as a
      natural number: [time.sleep(1)] adds 10, [time.sleep(0.1)] adds 1 and
      the aggregate timeout of 15 is 150.
    - Everything the module consumes from outside (the process table seen
      through [Popen], the filesystem seen through [os.path.exists] and
      [os.stat], the middleware's hooks and calls, [filter_list]) is a
      field of an [environment]; theorems hold for every environment.
    - Python objects that are shared and mutated in place (the service
      rows) live in a heap and are passed around as references.
    - What a process prints and what a file holds is a [str] of Python 3,
      a sequence of code points; the Unicode tables of the interpreter are
      part of the environment, and nothing is assumed about them. *)

From stdpp Require Import gmap strings list fin_maps.
From Stdlib Require Import ZArith NArith Ascii.
From Equations Require Import Equations.

Open Scope string_scope.
Open Scope N_scope.

(** ** Python values *)

Definition loc := nat.

#[local] Set Warnings "-register-all".

Inductive pyval :=
| VNone
| VBool (b : bool)
| VInt (z : Z)
| VStr (s : string)
| VList (l : list pyval)
| VTuple (l : list pyval)
| VDict (d : list (string * pyval))   (* a dict written out in a call *)
| VRef (l : loc).                     (* a dict object of the heap *)

(** A dict object: string keys, as every dict of this module has. *)
Abbreviation dict := (gmap string pyval).
Abbreviation heap_t := (gmap loc (gmap string pyval)).

Inductive exn :=
| ValueError (msg : string)
| KeyError (key : string)
| TypeError (msg : string)
| AttributeError (name : string)
| OSError (msg : string)
| CallError (msg : string).

(** ** Strings read from outside *)

(** A [str] that the program reads from a process or from a file: its code
    points. What the program itself writes (command lines, keys, names) is
    a [string]. *)
Definition text := list N.

(** The text of a literal. *)
Fixpoint text_of (s : string) : text :=
  match s with
  | EmptyString => []
  | String a s' => N_of_ascii a :: text_of s'
  end.

(** What the interpreter that runs the module decides: the Unicode tables
    behind [str.isspace], [str.isdigit] and the decimal value of a character,
    which are consulted for the characters outside ASCII only, whether [int]
    reads underscores between digits (Python 3.6 on), and
    [sys.get_int_max_str_digits()], 0 where there is no limit. *)
Record interpreter := Interpreter {
  unicode_space : N -> bool;
  unicode_digit : N -> bool;
  unicode_decimal : N -> option N;
  int_underscores : bool;
  int_max_str_digits : N
}.

Module PyStr.

Section Str.

Variable py : interpreter.

(** [str.isspace] on one character. *)
Definition isspace (c : N) : bool :=
  if c <? 128 then ((9 <=? c) && (c <=? 13)) || ((28 <=? c) && (c <=? 32))
  else unicode_space py c.

(** [str.isdigit] on one character. *)
Definition isdigit_char (c : N) : bool :=
  if c <? 128 then (48 <=? c) && (c <=? 57) else unicode_digit py c.

(** The value of a decimal digit, [None] for any other character. *)
Definition todecimal (c : N) : option N :=
  if c <? 128 then (if (48 <=? c) && (c <=? 57) then Some (c - 48) else None)
  else unicode_decimal py c.

Fixpoint lstrip (s : text) : text :=
  match s with
  | c :: s' => if isspace c then lstrip s' else s
  | [] => []
  end.

Fixpoint rstrip (s : text) : text :=
  match s with
  | c :: s' =>
      match rstrip s' with
      | [] => if isspace c then [] else [c]
      | r => c :: r
      end
  | [] => []
  end.

(** [s.strip()]. *)
Definition strip (s : text) : text := rstrip (lstrip s).

(** [s.split('\n')]: the pieces between line feeds, empty ones kept. *)
Fixpoint split_lines_aux (cur : text) (s : text) : list text :=
  match s with
  | [] => [rev cur]
  | c :: s' =>
      if c =? 10 then rev cur :: split_lines_aux [] s'
      else split_lines_aux (c :: cur) s'
  end.

Definition split_lines (s : text) : list text := split_lines_aux [] s.

(** [str.isdigit]: at least one character, all of them digits. *)
Definition isdigit (s : text) : bool :=
  match s with
  | [] => false
  | _ => forallb isdigit_char s
  end.

(** What [int] makes of its argument before it reads it: ASCII is kept,
    white space becomes a blank, a decimal digit becomes the ASCII
    digit of its value, and the first character that is none of these
    becomes a question mark, at which the text is cut. *)
Fixpoint to_ascii (s : text) : text :=
  match s with
  | [] => []
  | c :: s' =>
      if c <? 127 then c :: to_ascii s'
      else if isspace c then 32 :: to_ascii s'
      else match todecimal c with
           | Some d => (48 + d) :: to_ascii s'
           | None => [63]
           end
  end.

(** White space and digits as the C library has them. *)
Definition c_isspace (c : N) : bool := ((9 <=? c) && (c <=? 13)) || (c =? 32).
Definition c_isdigit (c : N) : bool := (48 <=? c) && (c <=? 57).

Fixpoint lstrip_c (s : text) : text :=
  match s with
  | c :: s' => if c_isspace c then lstrip_c s' else s
  | [] => []
  end.

(** The run of digits, and of single underscores between them, at the
    head of [s]: how many digits, their value, and what follows;
    [None] when two underscores meet or an underscore ends the run. *)
Fixpoint scan (after_underscore : bool) (n : N) (acc : Z) (s : text)
  : option (N * Z * text) :=
  match s with
  | c :: s' =>
      if c_isdigit c then scan false (n + 1) (10 * acc + Z.of_N (c - 48))%Z s'
      else if (c =? 95) && int_underscores py then
        if after_underscore then None else scan true n acc s'
      else if after_underscore then None else Some (n, acc, s)
  | [] => if after_underscore then None else Some (n, acc, [])
  end.

Definition invalid_literal : exn :=
  ValueError "invalid literal for int() with base 10".
Definition too_many_digits : exn :=
  ValueError "Exceeds the limit for integer string conversion".

(** [int(s)] on a [str]: white space, an optional sign, digits, white
    space; ValueError for anything else, and for more digits than the
    interpreter's limit, which it looks at beyond 640 digits only. *)
Definition int (s : text) : exn + Z :=
  let buf := lstrip_c (to_ascii s) in
  let negative := match buf with c :: _ => c =? 45 | [] => false end in
  let buf := match buf with
             | c :: r => if (c =? 43) || (c =? 45) then r else buf
             | [] => buf
             end in
  if match buf with c :: _ => c =? 95 | [] => false end then inl invalid_literal
  else
    match scan false 0 0%Z buf with
    | None => inl invalid_literal
    | Some (n, v, rest) =>
        if (640 <? n) && (0 <? int_max_str_digits py) && (int_max_str_digits py <? n)
        then inl too_many_digits
        else if (n =? 0) || negb (forallb c_isspace rest) then inl invalid_literal
        else inr (if negative then - v else v)%Z
    end.

(** [[int(i) for i in lines if i.isdigit()]]. *)
Fixpoint ints (lines : list text) : exn + list Z :=
  match lines with
  | [] => inr []
  | i :: lines' =>
      if isdigit i then
        match int i with
        | inl e => inl e
        | inr pid =>
            match ints lines' with
            | inl e => inl e
            | inr pids => inr (pid :: pids)
            end
        end
      else ints lines'
  end.

End Str.

Fixpoint lstrip_nl (s : text) : text :=
  match s with
  | c :: s' => if c =? 10 then lstrip_nl s' else s
  | [] => []
  end.

Fixpoint rstrip_nl (s : text) : text :=
  match s with
  | c :: s' =>
      match rstrip_nl s' with
      | [] => if c =? 10 then [] else [c]
      | r => c :: r
      end
  | [] => []
  end.

(** [s.strip('\n')]. *)
Definition strip_nl (s : text) : text := rstrip_nl (lstrip_nl s).

End PyStr.

(** ** The world: clock, event log and heap *)

Inductive event :=
| EvDebug (msg : string)                         (* self.logger.debug *)
| EvHook (name what : string)                    (* middleware.call_hook *)
| EvCall (name : string) (args : list pyval)     (* middleware.call *)
| EvPopen (cmd : string)                         (* Popen(cmd, shell=True) *)
| EvThread (verb : string) (pidfile : option string) (* StartNotify(...).start() *)
| EvKill (pid : Z) (sig : string)                (* os.kill *)
| EvEnviron (key value : string)                 (* os.environ[key] = value *)
| EvTzset                                        (* time.tzset() *)
| EvQuery (filters : pyval) (options : gmap string pyval).
                                  (* middleware.call('datastore.query', 'services.services', ...) *)

Record world := World {
  now : N;
  log : list event;
  heap : heap_t
}.

(** What one finished external command gives back. *)
Record proc := Proc {
  returncode : Z;
  stdout : text;
  elapsed : N
}.

(** The rows [datastore.query] gives: a list, or one row when a single
    service has been requested. *)
Inductive rows :=
| Rows (l : list loc)
| Row (l : loc).

Record environment := Environment {
  (** [Popen(cmd, ...)] followed by [communicate()], started at a given
      time after a given history: the call raises, or the process ends. *)
  popen : list event -> N -> string -> exn + proc;
  (** [os.stat(path).st_size] at a given time; [None] when
      [os.path.exists(path)] is false. *)
  st_size : N -> string -> option N;
  (** [self.middleware.call_hook(name, what)]. *)
  call_hook : list event -> N -> string -> string -> option exn;
  (** [self.middleware.call(name, *args)]. *)
  middleware_call : list event -> N -> string -> list pyval -> exn + pyval;
  (** [self.middleware.call('datastore.query', 'services.services', ...)]. *)
  datastore_query : list event -> N -> pyval -> dict -> exn + rows;
  (** [open(path, 'r')] and [f.read()] at a given time. *)
  read_file : N -> string -> exn + text;
  (** [os.kill(pid, sig)]. *)
  os_kill : list event -> N -> Z -> string -> option exn;
  (** [middlewared.utils.filter_list]. *)
  filter_list : list pyval -> pyval -> dict -> exn + pyval;
  (** The interpreter, for what it decides about [str] and [int]. *)
  python : interpreter
}.

(** ** A state and exception monad *)

Inductive outcome (A : Type) :=
| Ok (a : A)
| Raise (e : exn).
Arguments Ok {A} a.
Arguments Raise {A} e.

Definition M (A : Type) : Type := world -> outcome A * world.

#[global] Instance M_ret : MRet M := fun A a w => (Ok a, w).
#[global] Instance M_bind : MBind M := fun A B f m w =>
  match m w with
  | (Ok a, w') => f a w'
  | (Raise e, w') => (Raise e, w')
  end.

Definition raise {A} (e : exn) : M A := fun w => (Raise e, w).

(** [try: body except: handler] (a bare except catches everything). *)
Definition try_except {A} (body : M A) (handler : exn -> M A) : M A := fun w =>
  match body w with
  | (Ok a, w') => (Ok a, w')
  | (Raise e, w') => handler e w'
  end.

Definition emit (ev : event) : M unit := fun w =>
  (Ok tt, World (now w) (log w ++ [ev]) (heap w)).

Definition wait (d : N) : M unit := fun w =>
  (Ok tt, World (now w + d) (log w) (heap w)).

Definition wait_until (t : N) : M unit := fun w =>
  (Ok tt, World (N.max (now w) t) (log w) (heap w)).

Definition lift_sum {A} (r : exn + A) : M A :=
  match r with
  | inl e => raise e
  | inr a => mret a
  end.

(** [d[key]] on the dict object at [l]. An object that the heap does not
    list is the empty dict. *)
Definition getitem (l : loc) (key : string) : M pyval := fun w =>
  match heap w !! l ≫= (.!! key) with
  | Some v => (Ok v, w)
  | None => (Raise (KeyError key), w)
  end.

(** [d[key] = v] on the dict object at [l]. *)
Definition setitem (l : loc) (key : string) (v : pyval) : M unit := fun w =>
  (Ok tt, World (now w) (log w) (<[l := <[key := v]> (default ∅ (heap w !! l))]> (heap w))).

Definition get_heap : M heap_t := fun w => (Ok (heap w), w).

(** Truth value of an object, as [if x:] takes it. *)
Definition truthy (h : heap_t) (v : pyval) : bool :=
  match v with
  | VNone => false
  | VBool b => b
  | VInt z => negb (z =? 0)%Z
  | VStr s => negb (String.eqb s "")
  | VList l => negb (bool_decide (length l = 0%nat))
  | VTuple l => negb (bool_decide (length l = 0%nat))
  | VDict d => negb (bool_decide (length d = 0%nat))
  | VRef l => negb (bool_decide (default ∅ (h !! l) = ∅))
  end.

(** [int(s)] on a [str]. *)
Definition py_int (py : interpreter) (s : text) : M Z := lift_sum (PyStr.int py s).

(** [v[key]] for a string key. *)
Definition py_getitem (v : pyval) (key : string) : M pyval :=
  match v with
  | VRef l => getitem l key
  | VDict d =>
      match (list_to_map d : dict) !! key with
      | Some x => mret x
      | None => raise (KeyError key)
      end
  | VStr _ | VList _ | VTuple _ => raise (TypeError "indices must be integers")
  | VNone | VBool _ | VInt _ => raise (TypeError "object is not subscriptable")
  end.

Fixpoint chars (s : string) : list pyval :=
  match s with
  | EmptyString => []
  | String a s' => VStr (String a EmptyString) :: chars s'
  end.

(** What [for x in v:] goes through. *)
Definition py_iter (v : pyval) : M (list pyval) :=
  match v with
  | VList l | VTuple l => mret l
  | VStr s => mret (chars s)
  | VDict d => mret ((VStr ∘ fst) <$> d)
  | VRef l => h ← get_heap; mret ((VStr ∘ fst) <$> map_to_list (default ∅ (h !! l)))
  | VNone | VBool _ | VInt _ => raise (TypeError "object is not iterable")
  end.

(** Truth value of an optional string ([None] and [''] are false). *)
Definition nonempty (s : option string) : bool :=
  match s with
  | Some s => negb (String.eqb s "")
  | None => false
  end.

(** ** class StartNotify(threading.Thread) *)

(** What the watcher thread does, in order. *)
Inductive wevent :=
| WSleep (d : N)                          (* time.sleep *)
| WExists (path : string) (r : bool)      (* os.path.exists *)
| WStat (path : string) (size : N).       (* os.stat(path).st_size *)

(** The thread's own clock and what it has done so far. *)
Record watch := Watch {
  clock : N;
  trace : list wevent
}.

(** The thread object: the two attributes set by [__init__] and the time
    at which [start()] was called. *)
Record StartNotify := Build_StartNotify {
  _pidfile : option string;
  _verb : string;
  started_at : N
}.

Section Watcher.

Variable E : environment.

Definition sleep (d : N) (s : watch) : watch :=
  Watch (clock s + d) (trace s ++ [WSleep d]).

(** [os.path.exists(path)] at time [t]. *)
Definition exists_at (t : N) (path : string) : bool :=
  bool_decide (is_Some (st_size E t path)).

Definition path_exists (path : string) (s : watch) : bool * watch :=
  let r := exists_at (clock s) path in
  (r, Watch (clock s) (trace s ++ [WExists path r])).

Definition stat_size (path : string) (s : watch) : N * watch :=
  let n := default 0 (st_size E (clock s) path) in
  (n, Watch (clock s) (trace s ++ [WStat path n])).

(** The body of the [while] loop up to, and without, [tries += 1]:
    [true] when it leaves the loop by [break]. *)
Definition poll (pidfile verb : string) (s : watch) : bool * watch :=
  let s := sleep 10 s in
  if String.eqb verb "start" || String.eqb verb "restart" then
    let '(ex, s) := path_exists pidfile s in
    let s := if ex then sleep 1 s else s in
    let '(ex, s) := path_exists pidfile s in
    if ex then
      let '(size, s) := stat_size pidfile s in
      (0 <? size, s)
    else (false, s)
  else if String.eqb verb "stop" then
    let '(ex, s) := path_exists pidfile s in
    (negb ex, s)
  else (false, s).

(** [while tries < 6: ...]; gives the last value of [tries], whether the
    loop was left by [break], and the thread's state. *)
Equations? run_loop (pidfile verb : string) (tries : nat) (s : watch)
  : nat * bool * watch by wf (6 - tries)%nat lt :=
  run_loop pidfile verb tries s with lt_dec tries 6 := {
    | left _ with poll pidfile verb s := {
        | (true, s') := (tries, true, s');
        | (false, s') := run_loop pidfile verb (S tries) s' };
    | right _ := (tries, false, s) }.
Proof. lia. Qed.

(** [StartNotify.run]. *)
Definition run (self : StartNotify) : nat * bool * watch :=
  let s := Watch (started_at self) [] in
  match _pidfile self with
  | None => (0%nat, false, s)
  | Some pidfile =>
      if String.eqb pidfile "" then (0%nat, false, s)
      else run_loop pidfile (_verb self) 1 s
  end.

(** The time at which the thread ends, which [join()] waits for. *)
Definition finished_at (self : StartNotify) : N := clock (run self).2.

(** How many times the loop body ran: it starts with [time.sleep(1)],
    and nothing else sleeps that long. *)
Definition is_poll (e : wevent) : bool :=
  match e with
  | WSleep d => d =? 10
  | _ => false
  end.

Definition polls (s : watch) : nat := length (List.filter is_poll (trace s)).

End Watcher.

(** ** class ServiceService(Service) *)

(** [SERVICE_DEFS]: service name to (procname, pidfile). *)
Definition SERVICE_DEFS : gmap string (option string * option string) :=
  list_to_map [
    ("ssh", (Some "sshd", Some "/var/run/sshd.pid"));
    ("rsync", (Some "rsync", Some "/var/run/rsyncd.pid"));
    ("nfs", (Some "nfsd", None));
    ("afp", (Some "netatalk", None));
    ("cifs", (Some "smbd", Some "/var/run/samba/smbd.pid"));
    ("dynamicdns", (Some "inadyn-mt", None));
    ("snmp", (Some "snmpd", Some "/var/run/net_snmpd.pid"));
    ("ftp", (Some "proftpd", Some "/var/run/proftpd.pid"));
    ("tftp", (Some "inetd", Some "/var/run/inetd.pid"));
    ("iscsitarget", (Some "ctld", Some "/var/run/ctld.pid"));
    ("lldp", (Some "ladvd", Some "/var/run/ladvd.pid"));
    ("ups", (Some "upsd", Some "/var/db/nut/upsd.pid"));
    ("upsmon", (Some "upsmon", Some "/var/db/nut/upsmon.pid"));
    ("smartd", (Some "smartd", Some "/var/run/smartd.pid"));
    ("webshell", (None, Some "/var/run/webshell.pid"));
    ("webdav", (Some "httpd", Some "/var/run/httpd.pid"));
    ("backup", (None, Some "/var/run/backup.pid"))
  ].

(** ["{}".format(x)] for a string or [None]. *)
Definition fmt (s : option string) : string :=
  match s with
  | Some s => s
  | None => "None"
  end.

(** The pids on pgrep's standard output:
    [[int(i) for i in data.strip().split('\n') if i.isdigit()]]. A line
    that [str.isdigit] accepts and [int] refuses (a digit that is no decimal
    digit, such as a superscript two) makes the comprehension raise the
    ValueError of [int]. *)
Definition parse_pids (py : interpreter) (data : text) : exn + list Z :=
  PyStr.ints py (PyStr.split_lines (PyStr.strip py data)).

(** The command line [_started] builds. *)
Definition pgrep_command (procname pidfile : option string) : string :=
  if nonempty pidfile then
    "/bin/pgrep -F " +:+ fmt pidfile +:+ (if nonempty procname then " " +:+ fmt procname else "")
  else
    "/bin/pgrep " +:+ fmt procname.

(** [x in ("start", "stop", "restart", "reload")]. *)
Definition generic_verb (action : string) : bool :=
  String.eqb action "start" || String.eqb action "stop" ||
  String.eqb action "restart" || String.eqb action "reload".

Fixpoint map_M {A B} (f : A -> M B) (l : list A) : M (list B) :=
  match l with
  | [] => mret []
  | x :: l' => y ← f x; ys ← map_M f l'; mret (y :: ys)
  end.

Section Service.

Variable E : environment.

(** [getattr(self, name, None)] for the names the dispatcher builds: the
    methods [_<verb>_<service>] and [_started_<service>] of the class,
    already bound to [self] and called without arguments. *)
Variable attrs : string -> option (M pyval).

(** [Popen(cmd, shell=True, ...)] and [proc.communicate()]. *)
Definition Popen (cmd : string) : M proc := fun w =>
  let w' := World (now w) (log w ++ [EvPopen cmd]) (heap w) in
  match popen E (log w) (now w) cmd with
  | inl e => (Raise e, w')
  | inr p => (Ok p, World (now w + elapsed p) (log w') (heap w))
  end.

Definition hook (name what : string) : M unit := fun w =>
  let w' := World (now w) (log w ++ [EvHook name what]) (heap w) in
  match call_hook E (log w) (now w) name what with
  | Some e => (Raise e, w')
  | None => (Ok tt, w')
  end.

Definition debug (msg : string) : M unit := emit (EvDebug msg).

(** [notify.join()]: back when the thread has ended. *)
Definition join (sn : StartNotify) : M unit := wait_until (finished_at E sn).

Definition _system (cmd : string) : M Z :=
  proc ← Popen cmd;
  mret (returncode proc).

Definition _started_notify (verb what : string) : M (option StartNotify) :=
  match SERVICE_DEFS !! what with
  | Some (procname, pidfile) => fun w =>
      let sn := Build_StartNotify pidfile verb (now w) in
      (emit (EvThread verb pidfile);; mret (Some sn)) w
  | None => mret None
  end.

Definition _started (what : string) (notify : option StartNotify) : M (bool * list Z) :=
  match SERVICE_DEFS !! what with
  | Some (procname, pidfile) =>
      match notify with
      | Some sn => join sn
      | None => mret tt
      end;;
      proc ← Popen (pgrep_command procname pidfile);
      if (returncode proc =? 0)%Z
      then pids ← lift_sum (parse_pids (python E) (stdout proc)); mret (true, pids)
      else mret (false, [])
  | None => mret (false, [])
  end.

Definition _simplecmd (action what : string) : M unit :=
  debug ("Calling: " +:+ action +:+ "(" +:+ what +:+ ") ");;
  let f := attrs ("_" +:+ action +:+ "_" +:+ what) in
  match f with
  | None =>
      let what :=
        match SERVICE_DEFS !! what with
        | Some (procname, pidfile) => if nonempty procname then fmt procname else what
        | None => what
        end in
      if generic_verb action then
        (if String.eqb action "restart"
         then _system ("/usr/sbin/service " +:+ what +:+ " forcestop ");; mret tt
         else mret tt);;
        _system ("/usr/sbin/service " +:+ what +:+ " " +:+ action);;
        mret tt
      else raise (ValueError "Internal error: Unknown command")
  | Some _ => mret tt
  end;;
  match f with
  | Some f => f;; mret tt
  | None => mret tt
  end.

Definition started (what : string) (sn : option StartNotify) : M pyval :=
  match attrs ("_started_" +:+ what) with
  | Some f => f
  | None => r ← _started what sn; mret (VBool r.1)
  end.

Definition start (service : string) : M pyval :=
  hook "service.pre_start" service;;
  sn ← _started_notify "start" service;
  _simplecmd "start" service;;
  started service sn.

Definition stop (service : string) : M pyval :=
  hook "service.pre_stop" service;;
  sn ← _started_notify "stop" service;
  _simplecmd "stop" service;;
  started service sn.

Definition restart (service : string) : M pyval :=
  hook "service.pre_restart" service;;
  sn ← _started_notify "restart" service;
  _simplecmd "restart" service;;
  started service sn.

Definition reload (service : string) : M pyval :=
  hook "service.pre_reload" service;;
  try_except (_simplecmd "reload" service) (λ _, restart service;; mret tt);;
  started service None.

Definition _get_status (service : loc) : M pyval :=
  what ← getitem service "service";
  '(running, pids) ←
    match what with
    | VStr what => _started what None
    | VList _ | VDict _ | VRef _ => raise (TypeError "unhashable type")
    | _ => mret (false, [])
    end;
  state ←
    (if running : bool then mret "RUNNING"
     else
       enable ← getitem service "enable";
       h ← get_heap;
       mret (if truthy h enable then "CRASHED" else "STOPPED")) : M string;
  setitem service "state" (VStr state);;
  setitem service "pids" (VList (VInt <$> pids));;
  mret (VRef service).

End Service.

(** ** The methods of the class that the dispatcher finds by name *)

Section Methods.

Variable E : environment.

Definition _start_webdav : M pyval :=
  _system E "/usr/sbin/service ix-apache onestart";;
  _system E "/usr/sbin/service apache24 start";;
  mret VNone.

Definition _stop_webdav : M pyval :=
  _system E "/usr/sbin/service apache24 stop";;
  mret VNone.

Definition _restart_webdav : M pyval :=
  _system E "/usr/sbin/service apache24 forcestop";;
  _system E "/usr/sbin/service ix-apache onestart";;
  _system E "/usr/sbin/service apache24 restart";;
  mret VNone.

Definition _reload_webdav : M pyval :=
  _system E "/usr/sbin/service ix-apache onestart";;
  _system E "/usr/sbin/service apache24 reload";;
  mret VNone.

Definition _restart_django : M pyval :=
  _system E "/usr/sbin/service django restart";;
  mret VNone.

Definition _start_webshell : M pyval :=
  _system E "/usr/local/bin/python /usr/local/www/freenasUI/tools/webshell.py";;
  mret VNone.

Definition _start_backup : M pyval :=
  _system E "/usr/local/bin/python /usr/local/www/freenasUI/tools/backup.py";;
  mret VNone.

Definition _restart_iscsitarget : M pyval :=
  _system E "/usr/sbin/service ix-ctld forcestart";;
  _system E "/usr/sbin/service ctld forcestop";;
  _system E "/usr/sbin/service ix-ctld quietstart";;
  _system E "/usr/sbin/service ctld restart";;
  mret VNone.

Definition _start_iscsitarget : M pyval :=
  _system E "/usr/sbin/service ix-ctld quietstart";;
  _system E "/usr/sbin/service ctld start";;
  mret VNone.

Definition _stop_iscsitarget : M pyval :=
  _system E "/usr/sbin/service ix-ctld forcestop";;
  _system E "/usr/sbin/service ctld forcestop";;
  mret VNone.

Definition _reload_iscsitarget : M pyval :=
  _system E "/usr/sbin/service ix-ctld quietstart";;
  _system E "/usr/sbin/service ctld reload";;
  mret VNone.

Definition _start_collectd : M pyval :=
  _system E "/usr/sbin/service ix-collectd quietstart";;
  _system E "/usr/sbin/service collectd restart";;
  mret VNone.

Definition _restart_collectd : M pyval :=
  _system E "/usr/sbin/service collectd stop";;
  _system E "/usr/sbin/service ix-collectd quietstart";;
  _system E "/usr/sbin/service collectd start";;
  mret VNone.

Definition _start_sysctl : M pyval :=
  _system E "/usr/sbin/service sysctl start";;
  _system E "/usr/sbin/service ix-sysctl quietstart";;
  mret VNone.

Definition _reload_sysctl : M pyval :=
  _system E "/usr/sbin/service sysctl start";;
  _system E "/usr/sbin/service ix-sysctl reload";;
  mret VNone.

Definition _stop_pbid : M pyval :=
  _system E "/usr/sbin/service pbid stop";;
  mret VNone.

Definition _start_pbid : M pyval :=
  _system E "/usr/sbin/service pbid start";;
  mret VNone.

Definition _restart_pbid : M pyval :=
  _system E "/usr/sbin/service pbid restart";;
  mret VNone.

Definition _reload_named : M pyval :=
  _system E "/usr/sbin/service named reload";;
  mret VNone.

Definition _restart_smartd : M pyval :=
  _system E "/usr/sbin/service ix-smartd quietstart";;
  _system E "/usr/sbin/service smartd forcestop";;
  _system E "/usr/sbin/service smartd restart";;
  mret VNone.

Definition _reload_ssh : M pyval :=
  _system E "/usr/sbin/service ix-sshd quietstart";;
  _system E "/usr/sbin/service ix_register reload";;
  _system E "/usr/sbin/service openssh reload";;
  _system E "/usr/sbin/service ix_sshd_save_keys quietstart";;
  mret VNone.

Definition _start_ssh : M pyval :=
  _system E "/usr/sbin/service ix-sshd quietstart";;
  _system E "/usr/sbin/service ix_register reload";;
  _system E "/usr/sbin/service openssh start";;
  _system E "/usr/sbin/service ix_sshd_save_keys quietstart";;
  mret VNone.

Definition _stop_ssh : M pyval :=
  _system E "/usr/sbin/service openssh forcestop";;
  _system E "/usr/sbin/service ix_register reload";;
  mret VNone.

Definition _restart_ssh : M pyval :=
  _system E "/usr/sbin/service ix-sshd quietstart";;
  _system E "/usr/sbin/service openssh forcestop";;
  _system E "/usr/sbin/service ix_register reload";;
  _system E "/usr/sbin/service openssh restart";;
  _system E "/usr/sbin/service ix_sshd_save_keys quietstart";;
  mret VNone.

Definition _reload_rsync : M pyval :=
  _system E "/usr/sbin/service ix-rsyncd quietstart";;
  _system E "/usr/sbin/service rsyncd restart";;
  mret VNone.

Definition _start_rsync : M pyval :=
  _system E "/usr/sbin/service ix-rsyncd quietstart";;
  _system E "/usr/sbin/service rsyncd start";;
  mret VNone.

Definition _stop_rsync : M pyval :=
  _system E "/usr/sbin/service rsyncd forcestop";;
  mret VNone.

Definition _started_nis : M pyval :=
  rc ← _system E "/etc/directoryservice/NIS/ctl status";
  mret (VBool (rc =? 0)%Z).

Definition _start_nis : M pyval :=
  rc ← _system E "/etc/directoryservice/NIS/ctl start";
  mret (VBool (rc =? 0)%Z).

Definition _restart_nis : M pyval :=
  rc ← _system E "/etc/directoryservice/NIS/ctl restart";
  mret (VBool (rc =? 0)%Z).

Definition _stop_nis : M pyval :=
  rc ← _system E "/etc/directoryservice/NIS/ctl stop";
  mret (VBool (rc =? 0)%Z).

Definition _start_ldap : M pyval :=
  rc ← _system E "/etc/directoryservice/LDAP/ctl start";
  mret (VBool (rc =? 0)%Z).

Definition _stop_ldap : M pyval :=
  rc ← _system E "/etc/directoryservice/LDAP/ctl stop";
  mret (VBool (rc =? 0)%Z).

Definition _restart_ldap : M pyval :=
  rc ← _system E "/etc/directoryservice/LDAP/ctl restart";
  mret (VBool (rc =? 0)%Z).

Definition _start_lldp : M pyval :=
  _system E "/usr/sbin/service ladvd start";;
  mret VNone.

Definition _stop_lldp : M pyval :=
  _system E "/usr/sbin/service ladvd forcestop";;
  mret VNone.

Definition _restart_lldp : M pyval :=
  _system E "/usr/sbin/service ladvd forcestop";;
  _system E "/usr/sbin/service ladvd restart";;
  mret VNone.

Definition _clear_activedirectory_config : M pyval :=
  _system E "/bin/rm -f /etc/directoryservice/ActiveDirectory/config";;
  mret VNone.

Definition _start_activedirectory : M pyval :=
  rc ← _system E "/etc/directoryservice/ActiveDirectory/ctl start";
  mret (VBool (rc =? 0)%Z).

Definition _stop_activedirectory : M pyval :=
  rc ← _system E "/etc/directoryservice/ActiveDirectory/ctl stop";
  mret (VBool (rc =? 0)%Z).

Definition _restart_activedirectory : M pyval :=
  rc ← _system E "/etc/directoryservice/ActiveDirectory/ctl restart";
  mret (VBool (rc =? 0)%Z).

Definition _started_domaincontroller : M pyval :=
  rc ← _system E "/etc/directoryservice/DomainController/ctl status";
  mret (VBool (rc =? 0)%Z).

Definition _start_domaincontroller : M pyval :=
  rc ← _system E "/etc/directoryservice/DomainController/ctl start";
  mret (VBool (rc =? 0)%Z).

Definition _stop_domaincontroller : M pyval :=
  rc ← _system E "/etc/directoryservice/DomainController/ctl stop";
  mret (VBool (rc =? 0)%Z).

Definition _restart_domaincontroller : M pyval :=
  rc ← _system E "/etc/directoryservice/DomainController/ctl restart";
  mret (VBool (rc =? 0)%Z).

Definition _restart_syslogd : M pyval :=
  _system E "/usr/sbin/service ix-syslogd quietstart";;
  _system E "/etc/local/rc.d/syslog-ng restart";;
  mret VNone.

Definition _start_syslogd : M pyval :=
  _system E "/usr/sbin/service ix-syslogd quietstart";;
  _system E "/etc/local/rc.d/syslog-ng start";;
  mret VNone.

Definition _stop_syslogd : M pyval :=
  _system E "/etc/local/rc.d/syslog-ng stop";;
  mret VNone.

Definition _reload_syslogd : M pyval :=
  _system E "/usr/sbin/service ix-syslogd quietstart";;
  _system E "/etc/local/rc.d/syslog-ng reload";;
  mret VNone.

Definition _start_tftp : M pyval :=
  _system E "/usr/sbin/service ix-inetd quietstart";;
  _system E "/usr/sbin/service inetd start";;
  mret VNone.

Definition _reload_tftp : M pyval :=
  _system E "/usr/sbin/service ix-inetd quietstart";;
  _system E "/usr/sbin/service inetd forcestop";;
  _system E "/usr/sbin/service inetd restart";;
  mret VNone.

Definition _restart_tftp : M pyval :=
  _system E "/usr/sbin/service ix-inetd quietstart";;
  _system E "/usr/sbin/service inetd forcestop";;
  _system E "/usr/sbin/service inetd restart";;
  mret VNone.

Definition _restart_cron : M pyval :=
  _system E "/usr/sbin/service ix-crontab quietstart";;
  mret VNone.

Definition _start_motd : M pyval :=
  _system E "/usr/sbin/service ix-motd quietstart";;
  _system E "/usr/sbin/service motd quietstart";;
  mret VNone.

Definition _start_ttys : M pyval :=
  _system E "/usr/sbin/service ix-ttys quietstart";;
  mret VNone.

Definition _reload_ftp : M pyval :=
  _system E "/usr/sbin/service ix-proftpd quietstart";;
  _system E "/usr/sbin/service proftpd restart";;
  mret VNone.

Definition _start_ftp : M pyval :=
  _system E "/usr/sbin/service ix-proftpd quietstart";;
  _system E "/usr/sbin/service proftpd start";;
  mret VNone.

Definition _stop_ftp : M pyval :=
  _system E "/usr/sbin/service proftpd forcestop";;
  mret VNone.

Definition _start_ups : M pyval :=
  _system E "/usr/sbin/service ix-ups quietstart";;
  _system E "/usr/sbin/service nut start";;
  _system E "/usr/sbin/service nut_upsmon start";;
  _system E "/usr/sbin/service nut_upslog start";;
  mret VNone.

Definition _stop_ups : M pyval :=
  _system E "/usr/sbin/service nut_upslog forcestop";;
  _system E "/usr/sbin/service nut_upsmon forcestop";;
  _system E "/usr/sbin/service nut forcestop";;
  mret VNone.

Definition _restart_ups : M pyval :=
  _system E "/usr/sbin/service ix-ups quietstart";;
  _system E "/usr/sbin/service nut forcestop";;
  _system E "/usr/sbin/service nut_upsmon forcestop";;
  _system E "/usr/sbin/service nut_upslog forcestop";;
  _system E "/usr/sbin/service nut restart";;
  _system E "/usr/sbin/service nut_upsmon restart";;
  _system E "/usr/sbin/service nut_upslog restart";;
  mret VNone.

Definition _load_afp : M pyval :=
  _system E "/usr/sbin/service ix-afpd quietstart";;
  _system E "/usr/sbin/service netatalk quietstart";;
  mret VNone.

Definition _start_afp : M pyval :=
  _system E "/usr/sbin/service ix-afpd start";;
  _system E "/usr/sbin/service netatalk start";;
  mret VNone.

Definition _stop_afp : M pyval :=
  _system E "/usr/sbin/service netatalk forcestop";;
  _system E "pkill -9 afpd";;
  _system E "pkill -9 cnid_metad";;
  mret VNone.

Definition _reload_afp : M pyval :=
  _system E "/usr/sbin/service ix-afpd quietstart";;
  _system E "killall -1 netatalk";;
  mret VNone.

Definition _reload_nfs : M pyval :=
  _system E "/usr/sbin/service ix-nfsd quietstart";;
  mret VNone.

Definition _stop_nfs : M pyval :=
  _system E "/usr/sbin/service lockd forcestop";;
  _system E "/usr/sbin/service statd forcestop";;
  _system E "/usr/sbin/service nfsd forcestop";;
  _system E "/usr/sbin/service mountd forcestop";;
  _system E "/usr/sbin/service nfsuserd forcestop";;
  _system E "/usr/sbin/service gssd forcestop";;
  _system E "/usr/sbin/service rpcbind forcestop";;
  mret VNone.

Definition _start_nfs : M pyval :=
  _system E "/usr/sbin/service ix-nfsd quietstart";;
  _system E "/usr/sbin/service rpcbind quietstart";;
  _system E "/usr/sbin/service gssd quietstart";;
  _system E "/usr/sbin/service nfsuserd quietstart";;
  _system E "/usr/sbin/service mountd quietstart";;
  _system E "/usr/sbin/service nfsd quietstart";;
  _system E "/usr/sbin/service statd quietstart";;
  _system E "/usr/sbin/service lockd quietstart";;
  mret VNone.

Definition _force_stop_jail : M pyval :=
  _system E "/usr/sbin/service jail forcestop";;
  mret VNone.

Definition _restart_dynamicdns : M pyval :=
  _system E "/usr/sbin/service ix-inadyn quietstart";;
  _system E "/usr/sbin/service inadyn-mt forcestop";;
  _system E "/usr/sbin/service inadyn-mt restart";;
  mret VNone.

Definition _restart_system : M pyval :=
  _system E "/bin/sleep 3 && /sbin/shutdown -r now &";;
  mret VNone.

Definition _stop_system : M pyval :=
  _system E "/sbin/shutdown -p now";;
  mret VNone.

Definition _reload_cifs : M pyval :=
  _system E "/usr/sbin/service ix-pre-samba quietstart";;
  _system E "/usr/sbin/service samba_server forcereload";;
  _system E "/usr/sbin/service ix-post-samba quietstart";;
  _system E "/usr/sbin/service mdnsd restart";;
  _system E "/usr/sbin/service netatalk reload";;
  mret VNone.

Definition _restart_cifs : M pyval :=
  _system E "/usr/sbin/service ix-pre-samba quietstart";;
  _system E "/usr/sbin/service samba_server forcestop";;
  _system E "/usr/sbin/service samba_server quietrestart";;
  _system E "/usr/sbin/service ix-post-samba quietstart";;
  _system E "/usr/sbin/service mdnsd restart";;
  _system E "/usr/sbin/service netatalk reload";;
  mret VNone.

Definition _start_cifs : M pyval :=
  _system E "/usr/sbin/service ix-pre-samba quietstart";;
  _system E "/usr/sbin/service samba_server quietstart";;
  _system E "/usr/sbin/service ix-post-samba quietstart";;
  mret VNone.

Definition _stop_cifs : M pyval :=
  _system E "/usr/sbin/service samba_server forcestop";;
  _system E "/usr/sbin/service ix-post-samba quietstart";;
  mret VNone.

Definition _start_snmp : M pyval :=
  _system E "/usr/sbin/service ix-snmpd quietstart";;
  _system E "/usr/sbin/service snmpd quietstart";;
  mret VNone.

Definition _stop_snmp : M pyval :=
  _system E "/usr/sbin/service snmpd quietstop";;
  _system E "/usr/sbin/service ix-snmpd quietstop";;
  mret VNone.

Definition _restart_snmp : M pyval :=
  _system E "/usr/sbin/service ix-snmpd quietstart";;
  _system E "/usr/sbin/service snmpd forcestop";;
  _system E "/usr/sbin/service snmpd quietstart";;
  mret VNone.

Definition _restart_http : M pyval :=
  _system E "/usr/sbin/service ix-nginx quietstart";;
  _system E "/usr/sbin/service ix_register reload";;
  _system E "/usr/sbin/service nginx restart";;
  mret VNone.

Definition _reload_http : M pyval :=
  _system E "/usr/sbin/service ix-nginx quietstart";;
  _system E "/usr/sbin/service ix_register reload";;
  _system E "/usr/sbin/service nginx reload";;
  mret VNone.

Definition _reload_loader : M pyval :=
  _system E "/usr/sbin/service ix-loader reload";;
  mret VNone.

Definition _start_loader : M pyval :=
  _system E "/usr/sbin/service ix-loader quietstart";;
  mret VNone.

(** [self.middleware.call(name, *args)]. *)
Definition call (name : string) (args : list pyval) : M pyval := fun w =>
  let w' := World (now w) (log w ++ [EvCall name args]) (heap w) in
  match middleware_call E (log w) (now w) name args with
  | inl e => (Raise e, w')
  | inr v => (Ok v, w')
  end.

Definition kill (pid : Z) (sig : string) : M unit := fun w =>
  let w' := World (now w) (log w ++ [EvKill pid sig]) (heap w) in
  match os_kill E (log w) (now w) pid sig with
  | Some e => (Raise e, w')
  | None => (Ok tt, w')
  end.

Definition read (path : string) : M text := fun w =>
  lift_sum (read_file E (now w) path) w.

Definition _restart_webshell : M pyval :=
  try_except
    (pid ← read "/var/run/webshell.pid";
     pid ← py_int (python E) pid;
     kill pid "SIGHUP";;
     wait 2)
    (λ _, mret tt);;
  _system E "ulimit -n 1024 && /usr/local/bin/python /usr/local/www/freenasUI/tools/webshell.py";;
  mret VNone.

Definition _start_network : M pyval :=
  call "interfaces.sync" [];;
  call "routes.sync" [];;
  mret VNone.

Definition _stop_jails : M pyval :=
  jails ← call "datastore.query" [VStr "jails.jails"];
  jails ← py_iter jails;
  map_M (λ jail,
    host ← py_getitem jail "jail_host";
    call "notifier.warden" [VStr "stop"; VList []; VDict [("jail", host)]]) jails;;
  mret VNone.

Definition _reload_hostname : M pyval :=
  _system E ("/bin/hostname " +:+ String "034" (String "034" ""));;
  _system E "/usr/sbin/service ix-hostname quietstart";;
  _system E "/usr/sbin/service hostname quietstart";;
  _system E "/usr/sbin/service collectd stop";;
  _system E "/usr/sbin/service ix-collectd quietstart";;
  _system E "/usr/sbin/service collectd start";;
  mret VNone.

Definition _reload_resolvconf : M pyval :=
  _reload_hostname;;
  _system E "/usr/sbin/service ix-resolv quietstart";;
  mret VNone.

Definition _reload_networkgeneral : M pyval :=
  _reload_resolvconf;;
  _system E "/usr/sbin/service routing restart";;
  mret VNone.

Definition _reload_timeservices : M pyval :=
  _system E "/usr/sbin/service ix-localtime quietstart";;
  _system E "/usr/sbin/service ix-ntpd quietstart";;
  _system E "/usr/sbin/service ntpd restart";;
  settings ← call "datastore.query"
    [VStr "system.settings"; VList [];
     VDict [("order_by", VList [VStr "-id"]); ("get", VBool true)]];
  tz ← py_getitem settings "stg_timezone";
  match tz with
  | VStr tz => emit (EvEnviron "TZ" tz)
  | _ => raise (TypeError "str expected")
  end;;
  emit EvTzset;;
  mret VNone.

Definition _restart_rsync : M pyval :=
  _stop_rsync;;
  _start_rsync;;
  mret VNone.

Definition _started_ldap : M pyval :=
  rc ← _system E "/usr/sbin/service ix-ldap status";
  if negb (rc =? 0)%Z then mret (VBool false)
  else call "notifier" [VStr "ldap_status"].

Definition _started_nt4 : M pyval :=
  ret ← _system E "service ix-nt4 status";
  mret (VBool (ret =? 0)%Z).

Definition _start_nt4 : M pyval :=
  ret ← _system E "/etc/directoryservice/NT4/ctl start";
  mret (VBool (ret =? 0)%Z).

Definition _restart_nt4 : M pyval :=
  ret ← _system E "/etc/directoryservice/NT4/ctl restart";
  mret (VBool (ret =? 0)%Z).

Definition _stop_nt4 : M pyval :=
  _system E "/etc/directoryservice/NT4/ctl stop";;
  mret (VBool false).

Definition _started_activedirectory : M pyval :=
  rc ← _system E ("/usr/sbin/service ix-" +:+ "kinit" +:+ " status");
  if negb (rc =? 0)%Z then mret (VBool false)
  else
    rc ← _system E ("/usr/sbin/service ix-" +:+ "activedirectory" +:+ " status");
    if negb (rc =? 0)%Z then mret (VBool false)
    else call "notifier" [VStr "ad_status"].

Definition _restart_ftp : M pyval :=
  _stop_ftp;;
  _start_ftp;;
  mret VNone.

Definition _started_ups : M pyval :=
  ups ← call "datastore.query"
    [VStr "services.ups"; VList [];
     VDict [("order_by", VList [VStr "-id"]); ("get", VBool true)]];
  mode ← py_getitem ups "ups_mode";
  let svc :=
    match mode with
    | VStr mode => if String.eqb mode "master" then "ups" else "upsmon"
    | _ => "upsmon"
    end in
  sn ← _started_notify "start" "upsmon";
  r ← _started E svc sn;
  mret (VTuple [VBool r.1; VList (VInt <$> r.2)]).

Definition _restart_afp : M pyval :=
  _stop_afp;;
  _start_afp;;
  mret VNone.

Definition _restart_nfs : M pyval :=
  _stop_nfs;;
  _start_nfs;;
  mret VNone.

Definition _start_plugins (jail plugin : option string) : M pyval :=
  (if nonempty jail && nonempty plugin
   then _system E ("/usr/sbin/service ix-plugins forcestart " +:+ fmt jail +:+ ":" +:+ fmt plugin)
   else _system E "/usr/sbin/service ix-plugins forcestart");;
  mret VNone.

Definition _stop_plugins (jail plugin : option string) : M pyval :=
  (if nonempty jail && nonempty plugin
   then _system E ("/usr/sbin/service ix-plugins forcestop " +:+ fmt jail +:+ ":" +:+ fmt plugin)
   else _system E "/usr/sbin/service ix-plugins forcestop");;
  mret VNone.

Definition _restart_plugins (jail plugin : option string) : M pyval :=
  _stop_plugins jail plugin;;
  _start_plugins jail plugin;;
  mret VNone.

Definition _started_plugins (jail plugin : option string) : M pyval :=
  rc ←
    (if nonempty jail && nonempty plugin
     then _system E ("/usr/sbin/service ix-plugins status " +:+ fmt jail +:+ ":" +:+ fmt plugin)
     else _system E "/usr/sbin/service ix-plugins status");
  mret (VBool (rc =? 0)%Z).

(** [os.popen(cmd)], [pipe.read()] and [pipe.close()], through the same
    view of the process table as [Popen]. *)
Definition __saver_loaded : M bool :=
  pipe ← Popen E "kldstat|grep daemon_saver";
  let out := PyStr.strip_nl (stdout pipe) in
  mret (0 <? length out)%nat.

Definition _start_saver : M pyval :=
  loaded ← __saver_loaded;
  (if negb loaded then _system E "kldload daemon_saver";; mret tt else mret tt);;
  mret VNone.

Definition _stop_saver : M pyval :=
  loaded ← __saver_loaded;
  (if loaded : bool then _system E "kldunload daemon_saver";; mret tt else mret tt);;
  mret VNone.

Definition _restart_saver : M pyval :=
  _stop_saver;;
  _start_saver;;
  mret VNone.

(** A method that cannot be called without arguments. *)
Definition missing_arguments : M pyval :=
  raise (TypeError "missing required positional arguments").

Definition methods0 : list (string * M pyval) := [
    ("_start_webdav", _start_webdav);
    ("_stop_webdav", _stop_webdav);
    ("_restart_webdav", _restart_webdav);
    ("_reload_webdav", _reload_webdav);
    ("_restart_django", _restart_django);
    ("_start_webshell", _start_webshell);
    ("_start_backup", _start_backup);
    ("_restart_iscsitarget", _restart_iscsitarget);
    ("_start_iscsitarget", _start_iscsitarget);
    ("_stop_iscsitarget", _stop_iscsitarget);
    ("_reload_iscsitarget", _reload_iscsitarget);
    ("_start_collectd", _start_collectd);
    ("_restart_collectd", _restart_collectd);
    ("_start_sysctl", _start_sysctl);
    ("_reload_sysctl", _reload_sysctl);
    ("_stop_pbid", _stop_pbid);
    ("_start_pbid", _start_pbid);
    ("_restart_pbid", _restart_pbid);
    ("_reload_named", _reload_named);
    ("_restart_smartd", _restart_smartd);
    ("_reload_ssh", _reload_ssh);
    ("_start_ssh", _start_ssh);
    ("_stop_ssh", _stop_ssh);
    ("_restart_ssh", _restart_ssh);
    ("_reload_rsync", _reload_rsync);
    ("_start_rsync", _start_rsync);
    ("_stop_rsync", _stop_rsync);
    ("_started_nis", _started_nis);
    ("_start_nis", _start_nis);
    ("_restart_nis", _restart_nis);
    ("_stop_nis", _stop_nis);
    ("_start_ldap", _start_ldap);
    ("_stop_ldap", _stop_ldap);
    ("_restart_ldap", _restart_ldap);
    ("_start_lldp", _start_lldp);
    ("_stop_lldp", _stop_lldp);
    ("_restart_lldp", _restart_lldp);
    ("_clear_activedirectory_config", _clear_activedirectory_config);
    ("_start_activedirectory", _start_activedirectory);
    ("_stop_activedirectory", _stop_activedirectory);
    ("_restart_activedirectory", _restart_activedirectory);
    ("_started_domaincontroller", _started_domaincontroller);
    ("_start_domaincontroller", _start_domaincontroller);
    ("_stop_domaincontroller", _stop_domaincontroller);
    ("_restart_domaincontroller", _restart_domaincontroller);
    ("_restart_syslogd", _restart_syslogd);
    ("_start_syslogd", _start_syslogd);
    ("_stop_syslogd", _stop_syslogd);
    ("_reload_syslogd", _reload_syslogd);
    ("_start_tftp", _start_tftp);
    ("_reload_tftp", _reload_tftp);
    ("_restart_tftp", _restart_tftp);
    ("_restart_cron", _restart_cron);
    ("_start_motd", _start_motd);
    ("_start_ttys", _start_ttys);
    ("_reload_ftp", _reload_ftp);
    ("_start_ftp", _start_ftp);
    ("_stop_ftp", _stop_ftp);
    ("_start_ups", _start_ups);
    ("_stop_ups", _stop_ups);
    ("_restart_ups", _restart_ups);
    ("_load_afp", _load_afp);
    ("_start_afp", _start_afp);
    ("_stop_afp", _stop_afp);
    ("_reload_afp", _reload_afp);
    ("_reload_nfs", _reload_nfs);
    ("_stop_nfs", _stop_nfs);
    ("_start_nfs", _start_nfs);
    ("_force_stop_jail", _force_stop_jail);
    ("_restart_dynamicdns", _restart_dynamicdns);
    ("_restart_system", _restart_system);
    ("_stop_system", _stop_system);
    ("_reload_cifs", _reload_cifs);
    ("_restart_cifs", _restart_cifs);
    ("_start_cifs", _start_cifs);
    ("_stop_cifs", _stop_cifs);
    ("_start_snmp", _start_snmp);
    ("_stop_snmp", _stop_snmp);
    ("_restart_snmp", _restart_snmp);
    ("_restart_http", _restart_http);
    ("_reload_http", _reload_http);
    ("_reload_loader", _reload_loader);
    ("_start_loader", _start_loader);
    ("_restart_webshell", _restart_webshell);
    ("_start_network", _start_network);
    ("_stop_jails", _stop_jails);
    ("_reload_hostname", _reload_hostname);
    ("_reload_resolvconf", _reload_resolvconf);
    ("_reload_networkgeneral", _reload_networkgeneral);
    ("_reload_timeservices", _reload_timeservices);
    ("_restart_rsync", _restart_rsync);
    ("_started_ldap", _started_ldap);
    ("_started_nt4", _started_nt4);
    ("_start_nt4", _start_nt4);
    ("_restart_nt4", _restart_nt4);
    ("_stop_nt4", _stop_nt4);
    ("_started_activedirectory", _started_activedirectory);
    ("_restart_ftp", _restart_ftp);
    ("_started_ups", _started_ups);
    ("_restart_afp", _restart_afp);
    ("_restart_nfs", _restart_nfs);
    ("_start_plugins", _start_plugins None None);
    ("_stop_plugins", _stop_plugins None None);
    ("_restart_plugins", _restart_plugins None None);
    ("_started_plugins", _started_plugins None None);
    ("_ServiceService__saver_loaded", b ← __saver_loaded; mret (VBool b));
    ("_start_saver", _start_saver);
    ("_stop_saver", _stop_saver);
    ("_restart_saver", _restart_saver);
    ("_started_notify", missing_arguments);
    ("_get_status", missing_arguments)
  ].

Definition attrs0 (name : string) : option (M pyval) :=
  (list_to_map methods0 : gmap string (M pyval)) !! name.

(** The methods that go back into the dispatcher. What they reach there
    ([reload("http")], [restart("collectd")], [reload("cifs")],
    [restart("syslogd")], [restart("cifs")]) looks up only the methods
    above, which [attrs0] lists. *)

Definition _start_jails : M pyval :=
  _system E "/usr/sbin/service ix-warden start";;
  jails ← call "datastore.query" [VStr "jails.jails"];
  jails ← py_iter jails;
  map_M (λ jail,
    autostart ← py_getitem jail "jail_autostart";
    h ← get_heap;
    if truthy h autostart then
      host ← py_getitem jail "jail_host";
      call "notifier.warden" [VStr "start"; VList []; VDict [("jail", host)]];;
      mret tt
    else mret tt) jails;;
  _system E "/usr/sbin/service ix-plugins start";;
  reload E attrs0 "http";;
  mret VNone.

Definition _restart_jails : M pyval :=
  _stop_jails;;
  _start_jails;;
  mret VNone.

Definition _reload_disk : M pyval :=
  _system E "/usr/sbin/service ix-fstab quietstart";;
  _system E "/usr/sbin/service ix-swap quietstart";;
  _system E "/usr/sbin/service swap quietstart";;
  _system E "/usr/sbin/service mountlate quietstart";;
  restart E attrs0 "collectd";;
  mret VNone.

Definition _reload_user : M pyval :=
  _system E "/usr/sbin/service ix-passwd quietstart";;
  _system E "/usr/sbin/service ix-aliases quietstart";;
  _system E "/usr/sbin/service ix-sudoers quietstart";;
  reload E attrs0 "cifs";;
  mret VNone.

(** [self.system_dataset_create] is an attribute that the class does not
    define: the first statement raises, and the rest of the body (restarts
    of syslogd, cifs and collectd) is never reached. *)
Definition _restart_system_datasets : M pyval :=
  raise (AttributeError "system_dataset_create").

Definition methods1 : list (string * M pyval) := [
    ("_start_jails", _start_jails);
    ("_restart_jails", _restart_jails);
    ("_reload_disk", _reload_disk);
    ("_reload_user", _reload_user);
    ("_restart_system_datasets", _restart_system_datasets)
  ].

(** [getattr(self, name, None)] on an instance of the class, for the
    attributes that the class body defines. *)
Definition class_attrs (name : string) : option (M pyval) :=
  (list_to_map (methods1 ++ methods0) : gmap string (M pyval)) !! name.

End Methods.

(** ** ServiceService.query: the greenlets *)

Section Aggregator.

Variable E : environment.

(** One greenlet of [query], [gevent.spawn(self._get_status, entry)],
    spawned in the world [w0]. Greenlets give way to each other only where
    they block, and [_get_status] blocks only inside [Popen]: what it does
    once its command has ended (reading [service['enable']], writing
    [state] and [pids]) is one step, taken on the heap [h] of that moment.
    The row's [service] key, read before the command starts, is written
    by nobody. The world this gives holds the time at which the greenlet
    ends and the heap it leaves. *)
Definition greenlet_run (w0 : world) (entry : loc) (h : heap_t) : outcome pyval * world :=
  _get_status E entry (World (now w0) (log w0) h).

(** [greenlet.value]: what the function returned, [None] while the
    greenlet runs and when it raised. *)
Definition greenlet_value (done : bool) (r : outcome pyval) : option pyval :=
  if done then
    match r with
    | Ok v => Some v
    | Raise _ => None
    end
  else None.

(** [jobs = {gevent.spawn(...): entry for entry in services}] and
    [gevent.joinall(list(jobs.keys()), timeout=timeout)], from the world
    [w0]: the value of each greenlet when [joinall] returns, in the order
    of the dict, which is the order of [services]. A greenlet's command is
    launched whether it ends in time or not; its writes reach the heap
    only if it does. *)
Fixpoint joinall (w0 : world) (timeout : N) (jobs : list loc) (acc : world)
  : list (option pyval) * world :=
  match jobs with
  | [] => ([], acc)
  | entry :: jobs' =>
      let '(r, w1) := greenlet_run w0 entry (heap acc) in
      let done := now w1 <=? now w0 + timeout in
      let acc' :=
        World (N.max (now acc) (N.min (now w1) (now w0 + timeout)))
              (log acc ++ drop (length (log w0)) (log w1))
              (if done then heap w1 else heap acc) in
      let '(values, w') := joinall w0 timeout jobs' acc' in
      (greenlet_value done r :: values, w')
  end.

(** The nested function [result(greenlet)], given the greenlet's value and
    [jobs.get(greenlet)]. *)
Definition result (entry : loc) (value : option pyval) : M pyval :=
  match value with
  | None =>
      setitem entry "state" (VStr "UNKNOWN");;
      setitem entry "pids" (VList []);;
      mret (VRef entry)
  | Some v => mret v
  end.

Definition query (filters : pyval) (options : option dict) : M pyval :=
  let options := <["suffix" := VStr "srv_"]> (default ∅ options) in
  services ← (fun w =>
    let w' := World (now w) (log w ++ [EvQuery filters options]) (heap w) in
    match datastore_query E (log w) (now w) filters options with
    | inl e => (Raise e, w')
    | inr r => (Ok r, w')
    end);
  let services :=
    match services with
    | Rows l => l
    | Row entry => [entry]
    end in
  values ← (fun w => let '(values, w') := joinall w 150 services w in (Ok values, w'));
  services ← map_M (λ job, result job.1 job.2) (zip services values);
  lift_sum (filter_list E services filters options).

(** A greenlet that [joinall] has given up on is not killed: it ends
    later, in a world [w], and takes its last step there. *)
Definition late_completion (w0 : world) (entry : loc) (w : world) : world :=
  let '(_, w1) := greenlet_run w0 entry (heap w) in
  World (N.max (now w) (now w1)) (log w) (heap w1).

End Aggregator.

(** ** An appliance to run the examples on *)

Definition nl : string := String "010" "".

(** An interpreter of the 3.11 line, with the rows of its Unicode tables
    that the examples use: the white space outside ASCII, the superscript
    digits (digits that are not decimal), and the Arabic-Indic and fullwidth
    decimal digits. *)
Definition python3 : interpreter := {|
  unicode_space := λ c,
    (c =? 133) || (c =? 160) || (c =? 5760) || ((8192 <=? c) && (c <=? 8202)) ||
    (c =? 8232) || (c =? 8233) || (c =? 8239) || (c =? 8287) || (c =? 12288);
  unicode_digit := λ c,
    (c =? 178) || (c =? 179) || (c =? 185) ||
    ((1632 <=? c) && (c <=? 1641)) || ((65296 <=? c) && (c <=? 65305));
  unicode_decimal := λ c,
    if (1632 <=? c) && (c <=? 1641) then Some (c - 1632)
    else if (65296 <=? c) && (c <=? 65305) then Some (c - 65296)
    else None;
  int_underscores := true;
  int_max_str_digits := 4300
|}.

Module Demo.
Definition env : environment := {|
  popen := λ _ t cmd,
    if 1000 <=? t then inl (OSError "Cannot allocate memory")
    else if String.eqb cmd "/bin/pgrep nfsd" then inr (Proc 0 (text_of ("812" +:+ nl +:+ "813" +:+ nl)) 1)
    else if String.eqb cmd "/bin/pgrep -F /var/run/sshd.pid sshd" then inr (Proc 0 (text_of ("123" +:+ nl)) 200)
    else if String.eqb cmd "/usr/sbin/service proftpd restart" then inl (OSError "Cannot allocate memory")
    else if String.prefix "/bin/pgrep" cmd then inr (Proc 1 [] 1)
    else inr (Proc 0 [] 3);
  st_size := λ t path, if String.eqb path "/var/run/sshd.pid" && (23 <=? t) then Some 4 else None;
  call_hook := λ _ _ _ _, None;
  middleware_call := λ _ _ _ _, inr VNone;
  datastore_query := λ _ _ _ _, inr (Rows [0; 1]%nat);
  read_file := λ _ _, inl (OSError "No such file or directory");
  os_kill := λ _ _ _ _, None;
  filter_list := λ l _ _, inr (VList l);
  python := python3
|}.
(** The same appliance when every command ends with exit status 1. *)
Definition failing : environment := {|
  popen := λ _ _ _, inr (Proc 1 [] 1);
  st_size := st_size env;
  call_hook := call_hook env;
  middleware_call := middleware_call env;
  datastore_query := datastore_query env;
  read_file := read_file env;
  os_kill := os_kill env;
  filter_list := filter_list env;
  python := python env
|}.
(** The same appliance when the middleware knows no hook. *)
Definition hookless : environment := {|
  popen := popen env;
  st_size := st_size env;
  call_hook := λ _ _ _ _, Some (CallError "no such hook");
  middleware_call := middleware_call env;
  datastore_query := datastore_query env;
  read_file := read_file env;
  os_kill := os_kill env;
  filter_list := filter_list env;
  python := python env
|}.
Definition heap0 : heap_t :=
  {[ 0%nat := {[ "service" := VStr "ssh"; "enable" := VBool true ]} ;
     1%nat := {[ "service" := VStr "nfs"; "enable" := VBool false ]} ]}.
Definition w0 := World 0 [] heap0.
Definition late := World 1000 [] heap0.
End Demo.

(** ** Words of the design document *)

(** Status resolution as section 4.4 puts it: a function of whether a process
    was found and of the enabled-at-boot flag. *)
Definition resolve_state (found enabled : bool) : string :=
  if found then "RUNNING" else if enabled then "CRASHED" else "STOPPED".

Definition is_state (v : pyval) : bool :=
  match v with
  | VStr s =>
      String.eqb s "RUNNING" || String.eqb s "STOPPED" ||
      String.eqb s "CRASHED" || String.eqb s "UNKNOWN"
  | _ => false
  end.

Definition is_pid_list (v : pyval) : bool :=
  match v with
  | VList l => forallb (λ x, match x with VInt _ => true | _ => false end) l
  | _ => false
  end.

(** A ServiceStatus: an object that carries a state and a list of process
    ids. *)
Definition is_ServiceStatus (h : heap_t) (v : pyval) : bool :=
  match v with
  | VRef l =>
      match h !! l ≫= (.!! "state"), h !! l ≫= (.!! "pids") with
      | Some state, Some pids => is_state state && is_pid_list pids
      | _, _ => false
      end
  | _ => false
  end.

(** The heap after [service['state'] = state; service['pids'] = pids]. *)
Definition with_status (service : loc) (state : string) (pids : list Z) (h : heap_t) : heap_t :=
  <[service := <["pids" := VList (VInt <$> pids)]>
                 (<["state" := VStr state]> (default ∅ (h !! service)))]> h.

(** ** Worlds met in the examples *)

Definition ftp_w0 : world := World 0 [EvHook "service.pre_reload" "ftp"] Demo.heap0.
Definition ftp_w1 : world :=
  World 3 [EvHook "service.pre_reload" "ftp"; EvDebug "Calling: reload(ftp) ";
           EvPopen "/usr/sbin/service ix-proftpd quietstart";
           EvPopen "/usr/sbin/service proftpd restart"] Demo.heap0.

(** The world in which [query], called in [Demo.w0], spawns its greenlets. *)
Definition query_spawned : world :=
  World 0 [EvQuery VNone {[ "suffix" := VStr "srv_" ]}] Demo.heap0.

Definition ssh_reloaded : world :=
  World 12
    [EvHook "service.pre_reload" "ssh"; EvDebug "Calling: reload(ssh) ";
     EvPopen "/usr/sbin/service ix-sshd quietstart";
     EvPopen "/usr/sbin/service ix_register reload";
     EvPopen "/usr/sbin/service openssh reload";
     EvPopen "/usr/sbin/service ix_sshd_save_keys quietstart"] Demo.heap0.

Definition nfs_started_world : world :=
  World 24
    [EvHook "service.pre_start" "nfs"; EvThread "start" None;
     EvDebug "Calling: start(nfs) ";
     EvPopen "/usr/sbin/service ix-nfsd quietstart";
     EvPopen "/usr/sbin/service rpcbind quietstart";
     EvPopen "/usr/sbin/service gssd quietstart";
     EvPopen "/usr/sbin/service nfsuserd quietstart";
     EvPopen "/usr/sbin/service mountd quietstart";
     EvPopen "/usr/sbin/service nfsd quietstart";
     EvPopen "/usr/sbin/service statd quietstart";
     EvPopen "/usr/sbin/service lockd quietstart"] Demo.heap0.

Definition nfs_final_world : world :=
  World 25 (log nfs_started_world ++ [EvPopen "/bin/pgrep nfsd"]) Demo.heap0.

Definition nfs_row_resolved : world :=
  World 1 [EvPopen "/bin/pgrep nfsd"]
    (with_status 1%nat "RUNNING" [812; 813]%Z Demo.heap0).

(** Row [entry] holds the status that stands for a resolution that was not
    finished in time. *)
Definition row_unknown (h : heap_t) (entry : loc) : Prop :=
  h !! entry ≫= (.!! "state") = Some (VStr "UNKNOWN") ∧
  h !! entry ≫= (.!! "pids") = Some (VList []).

(** The time at which the resolution of [entry], spawned in [w0], ends. *)
Definition finishes_at (E : environment) (w0 : world) (entry : loc) : N :=
  now (greenlet_run E w0 entry (heap w0)).2.

(** What [joinall] keeps, from the launch in [w0] on: the rows' [service]
    entries, and a clock between the launch and the deadline. *)
Definition joined (w0 : world) (timeout : N) (acc : world) : Prop :=
  (∀ l, heap acc !! l ≫= (.!! "service") = heap w0 !! l ≫= (.!! "service")) ∧
  now w0 ≤ now acc ≤ now w0 + timeout.

(** The name [_simplecmd] hands to service(8): the process name of the
    table when the service has one, the service name otherwise. *)
Definition rc_name (what : string) : string :=
  match SERVICE_DEFS !! what with
  | Some (procname, pidfile) => if nonempty procname then fmt procname else what
  | None => what
  end.

(** The command lines of the generic path of [_simplecmd]. *)
Definition generic_commands (action what : string) : list string :=
  (if String.eqb action "restart"
   then ["/usr/sbin/service " +:+ rc_name what +:+ " forcestop "]
   else []) ++
  ["/usr/sbin/service " +:+ rc_name what +:+ " " +:+ action].





(** ** What an action leaves alone *)

(** A computation that writes to no row, does not turn the clock back and
    takes nothing out of the history. *)
Definition leaves_rows {A} (m : M A) : Prop :=
  ∀ w, heap (m w).2 = heap w ∧ now w ≤ now (m w).2 ∧ log w `prefix_of` log (m w).2.

(** ** More worlds for the examples *)

(** A row for NIS, enabled at boot. *)
Definition nis_row : world :=
  World 0 [] {[ 0%nat := {[ "service" := VStr "nis"; "enable" := VBool true ]} ]}.

(** The demo appliance with a UPS configured as master. *)
Definition ups_appliance : environment := {|
  popen := popen Demo.env;
  st_size := st_size Demo.env;
  call_hook := call_hook Demo.env;
  middleware_call := λ _ _ name _,
    if String.eqb name "datastore.query" then inr (VDict [("ups_mode", VStr "master")])
    else inr VNone;
  datastore_query := datastore_query Demo.env;
  read_file := read_file Demo.env;
  os_kill := os_kill Demo.env;
  filter_list := filter_list Demo.env;
  python := python Demo.env
|}.

(** The row of [nis_row] once its status has been resolved. *)
Definition nis_row_resolved : world :=
  World 0 [] (with_status 0%nat "CRASHED" [] (heap nis_row)).

(** The command line that ends [_restart_webshell]. *)
Definition webshell_command : string :=
  "ulimit -n 1024 && /usr/local/bin/python /usr/local/www/freenasUI/tools/webshell.py".

(** The world in which [start("ups")] ends on [ups_appliance], called in
    [Demo.w0]. *)
Definition ups_started_world : world :=
  World 63
    [EvHook "service.pre_start" "ups";
     EvThread "start" (Some "/var/db/nut/upsd.pid");
     EvDebug "Calling: start(ups) ";
     EvPopen "/usr/sbin/service ix-ups quietstart";
     EvPopen "/usr/sbin/service nut start";
     EvPopen "/usr/sbin/service nut_upsmon start";
     EvPopen "/usr/sbin/service nut_upslog start";
     EvCall "datastore.query"
       [VStr "services.ups"; VList [];
        VDict [("order_by", VList [VStr "-id"]); ("get", VBool true)]];
     EvThread "start" (Some "/var/db/nut/upsmon.pid");
     EvPopen "/bin/pgrep -F /var/db/nut/upsd.pid upsd"] Demo.heap0.

(** The world in which [_restart_webshell], called in [w], launches the new
    shell: the old one has been sent a hangup, followed by a pause of 0.2
    when that went through, if its pid could be read. *)
Definition webshell_signalled (E : environment) (w : world) : world :=
  match read_file E (now w) "/var/run/webshell.pid" with
  | inr s =>
      match PyStr.int (python E) s with
      | inr pid =>
          World (now w + match os_kill E (log w) (now w) pid "SIGHUP" with
                         | None => 2
                         | Some _ => 0
                         end)
                (log w ++ [EvKill pid "SIGHUP"]) (heap w)
      | inl _ => w
      end
  | inl _ => w
  end.

(** ** Rows that keep their status *)

(** Row [entry] holds the state and the pids given. *)
Definition row_resolved (h : heap_t) (entry : loc) (state : string) (pids : list Z) : Prop :=
  h !! entry ≫= (.!! "state") = Some (VStr state) ∧
  h !! entry ≫= (.!! "pids") = Some (VList (VInt <$> pids)).

(** Two heaps that agree on every column but [state] and [pids]. *)
Definition same_columns (h h0 : heap_t) : Prop :=
  ∀ (l : loc) (key : string), key ≠ "state" → key ≠ "pids" →
    h !! l ≫= (.!! key) = h0 !! l ≫= (.!! key).

(** The world in which the pgrep for nfs ends, when [query] is called in
    [Demo.w0]. *)
Definition nfs_looked_up : world :=
  World 1 [EvQuery VNone {[ "suffix" := VStr "srv_" ]}; EvPopen "/bin/pgrep nfsd"] Demo.heap0.

(** ** The fallback of reload *)







(** * Properties *)

(** ** The readiness watcher *)

Section WatcherFacts.

Variable E : environment.

Lemma run_loop_step pidfile verb tries s :
  run_loop E pidfile verb tries s =
    if decide (tries < 6)%nat then
      if (poll E pidfile verb s).1
      then (tries, true, (poll E pidfile verb s).2)
      else run_loop E pidfile verb (S tries) (poll E pidfile verb s).2
    else (tries, false, s).
Proof.
  rewrite run_loop_equation_1.
  destruct (lt_dec tries 6) as [Hlt|Hge]; simpl.
  - rewrite decide_True by done.
    destruct (poll E pidfile verb s) as [[] s']; reflexivity.
  - rewrite decide_False by done. reflexivity.
Qed.

Lemma exists_at_Some t path n : st_size E t path = Some n → exists_at E t path = true.
Proof. intros H. unfold exists_at. rewrite H. reflexivity. Qed.

Lemma exists_at_None t path : st_size E t path = None → exists_at E t path = false.
Proof. intros H. unfold exists_at. rewrite H. reflexivity. Qed.

Lemma exists_at_true t path : exists_at E t path = true ↔ ∃ n, st_size E t path = Some n.
Proof. unfold exists_at. rewrite bool_decide_eq_true. reflexivity. Qed.

Lemma exists_at_false t path : exists_at E t path = false ↔ st_size E t path = None.
Proof.
  unfold exists_at. rewrite bool_decide_eq_false, <- eq_None_not_Some. reflexivity.
Qed.

(** One pass through the loop body for start and restart. *)
Lemma poll_start pidfile verb s :
  verb = "start" ∨ verb = "restart" →
  let t1 := clock s + 10 in
  let t2 := if exists_at E t1 pidfile then t1 + 1 else t1 in
  poll E pidfile verb s =
    (match st_size E t2 pidfile with Some n => 0 <? n | None => false end,
     Watch t2
       (trace s ++ [WSleep 10; WExists pidfile (exists_at E t1 pidfile)]
          ++ (if exists_at E t1 pidfile then [WSleep 1] else [])
          ++ [WExists pidfile (exists_at E t2 pidfile)]
          ++ match st_size E t2 pidfile with
             | Some n => [WStat pidfile n]
             | None => []
             end)).
Proof.
  intros Hverb t1 t2. unfold poll.
  replace (String.eqb verb "start" || String.eqb verb "restart") with true
    by (destruct Hverb; subst; reflexivity).
  unfold path_exists, stat_size, sleep. simpl. fold t1.
  assert (Ht2 : (if exists_at E t1 pidfile then t1 + 1 else t1) = t2) by reflexivity.
  destruct (exists_at E t1 pidfile); simpl; rewrite Ht2;
    (destruct (st_size E t2 pidfile) as [n|] eqn:H2;
     [rewrite (exists_at_Some _ _ _ H2) | rewrite (exists_at_None _ _ H2)]);
    simpl; rewrite ?H2; simpl; rewrite <- ?app_assoc; reflexivity.
Qed.

(** One pass through the loop body for stop. *)
Lemma poll_stop pidfile s :
  poll E pidfile "stop" s =
    (negb (exists_at E (clock s + 10) pidfile),
     Watch (clock s + 10)
       (trace s ++ [WSleep 10; WExists pidfile (exists_at E (clock s + 10) pidfile)])).
Proof.
  unfold poll, path_exists, sleep. simpl.
  rewrite <- !app_assoc. reflexivity.
Qed.

(** One pass for any other verb: nothing is looked at. *)
Lemma poll_other pidfile verb s :
  verb ≠ "start" → verb ≠ "restart" → verb ≠ "stop" →
  poll E pidfile verb s = (false, Watch (clock s + 10) (trace s ++ [WSleep 10])).
Proof.
  intros H1 H2 H3. unfold poll.
  apply String.eqb_neq in H1, H2, H3. rewrite H1, H2, H3. reflexivity.
Qed.

Lemma polls_app s l : polls (Watch (clock s) (trace s ++ l)) = (polls s + length (List.filter is_poll l))%nat.
Proof. unfold polls. simpl. rewrite List.filter_app, length_app. reflexivity. Qed.

(** Every pass sleeps 1 once, takes between 1 and 1.1, and only adds to
    the trace. *)
Lemma poll_step pidfile verb s :
  polls (poll E pidfile verb s).2 = S (polls s) ∧
  clock s + 10 ≤ clock (poll E pidfile verb s).2 ≤ clock s + 11.
Proof.
  destruct (decide (verb = "start")) as [->|Hs].
  { rewrite poll_start by auto. simpl. unfold polls. simpl.
    rewrite List.filter_app, length_app.
    destruct (exists_at E (clock s + 10) pidfile); simpl;
      match goal with |- context [st_size E ?t pidfile] => destruct (st_size E t pidfile) end;
      simpl; lia. }
  destruct (decide (verb = "restart")) as [->|Hr].
  { rewrite poll_start by auto. simpl. unfold polls. simpl.
    rewrite List.filter_app, length_app.
    destruct (exists_at E (clock s + 10) pidfile); simpl;
      match goal with |- context [st_size E ?t pidfile] => destruct (st_size E t pidfile) end;
      simpl; lia. }
  destruct (decide (verb = "stop")) as [->|Hp].
  { rewrite poll_stop. simpl. unfold polls. simpl.
    rewrite List.filter_app, length_app. simpl. lia. }
  rewrite poll_other by done. simpl. unfold polls. simpl.
  rewrite List.filter_app, length_app. simpl. lia.
Qed.

(** The loop, from any value of [tries] between 1 and 6. *)
Lemma run_loop_spec pidfile verb (n : nat) : ∀ tries s,
  (6 - tries = n)%nat → (tries ≤ 6)%nat →
  let '(tries', early, s') := run_loop E pidfile verb tries s in
  (tries ≤ tries' ≤ 6)%nat ∧
  polls s' = (polls s + (tries' - tries) + (if early then 1 else 0))%nat ∧
  (early = false → tries' = 6%nat) ∧
  (early = true → (tries' < 6)%nat) ∧
  clock s + 10 * N.of_nat (polls s' - polls s) ≤ clock s' ≤ clock s + 11 * N.of_nat (polls s' - polls s).
Proof.
  induction n as [|n IH]; intros tries s Hn Htries; rewrite run_loop_step.
  - rewrite decide_False by lia.
    repeat split; try lia; try discriminate.
  - rewrite decide_True by lia.
    pose proof (poll_step pidfile verb s) as [Hp Hc].
    destruct (poll E pidfile verb s) as [brk s1]; simpl in *.
    destruct brk.
    + repeat split; try lia; try discriminate.
    + specialize (IH (S tries) s1 ltac:(lia) ltac:(lia)).
      destruct (run_loop E pidfile verb (S tries) s1) as [[tries' early] s'].
      destruct IH as (H1 & H2 & H3 & H4 & H5).
      destruct early;
        [pose proof (H4 eq_refl) | pose proof (H3 eq_refl)];
        split_and!; intros; try discriminate; lia.
Qed.

End WatcherFacts.


(** C5, as the code has it. The watcher sleeps 1 before each poll and polls
    at most 5 times in all: the first poll and 4 more. It always ends, with
    nothing raised: by break after the poll that succeeded, or, when no poll
    succeeds, after exactly 5 polls (none at all without a marker file). From
    start to end it takes between 1 and 1.1 per poll, so 5.5 at most. *)
Theorem run_polls_at_most_five (E : environment) (self : StartNotify) :
  let '(tries, early, s) := run E self in
  (polls s ≤ 5)%nat ∧
  polls s = (if early then tries else if nonempty (_pidfile self) then 5 else 0)%nat ∧
  started_at self + 10 * N.of_nat (polls s) ≤ clock s ≤ started_at self + 11 * N.of_nat (polls s) ∧
  clock s ≤ started_at self + 55.
Proof.
  unfold run. destruct (_pidfile self) as [pidfile|]; simpl.
  2: { unfold polls. simpl. lia. }
  destruct (String.eqb pidfile "") eqn:Hp; simpl.
  { unfold polls. simpl. lia. }
  pose proof (run_loop_spec E pidfile (_verb self) 5 1 (Watch (started_at self) [])
                eq_refl ltac:(lia)) as H.
  destruct (run_loop E pidfile (_verb self) 1 (Watch (started_at self) []))
    as [[tries early] s].
  change (polls (Watch (started_at self) [])) with 0%nat in H. simpl in H.
  destruct H as (H1 & H2 & H3 & H4 & H5).
  destruct early; [pose proof (H4 eq_refl) | pose proof (H3 eq_refl)];
    split_and!; lia.
Qed.

(** C5, as stated, fails: with a marker file that never appears the watcher
    polls 5 times, not once and then 5 more times. *)
Lemma watcher_has_four_retries :
  let self := Build_StartNotify (Some "/var/run/proftpd.pid") "start" 0 in
  (run Demo.env self).1.2 = false ∧
  polls (run Demo.env self).2 = 5%nat ∧
  polls (run Demo.env self).2 ≠ (1 + 5)%nat.
Proof. vm_compute. split_and!; [reflexivity | reflexivity | discriminate]. Qed.

(** ** Running the monad *)

Lemma bind_Ok {A B} (m : M A) (f : A → M B) w a w' :
  m w = (Ok a, w') → (m ≫= f) w = f a w'.
Proof. intros H. unfold mbind, M_bind. by rewrite H. Qed.

Lemma bind_Raise {A B} (m : M A) (f : A → M B) w e w' :
  m w = (Raise e, w') → (m ≫= f) w = (Raise e, w').
Proof. intros H. unfold mbind, M_bind. by rewrite H. Qed.

Lemma bind_inv_Ok {A B} (m : M A) (f : A → M B) w b w' :
  (m ≫= f) w = (Ok b, w') → ∃ a w1, m w = (Ok a, w1) ∧ f a w1 = (Ok b, w').
Proof.
  unfold mbind, M_bind. destruct (m w) as [[a|e] w1]; [eauto|discriminate].
Qed.

Lemma try_except_Raise {A} (body : M A) handler w e w' :
  body w = (Raise e, w') → try_except body handler w = handler e w'.
Proof. intros H. unfold try_except. by rewrite H. Qed.

Lemma try_except_Ok {A} (body : M A) handler w a w' :
  body w = (Ok a, w') → try_except body handler w = (Ok a, w').
Proof. intros H. unfold try_except. by rewrite H. Qed.

Section DispatcherFacts.

Variable E : environment.
Variable attrs : string → option (M pyval).

Lemma _started_unknown what sn w :
  SERVICE_DEFS !! what = None → _started E what sn w = (Ok (false, []), w).
Proof. intros H. unfold _started. by rewrite H. Qed.

(** [_started] on a service of the table: the wait for the watcher, then
    one pgrep. *)
Lemma _started_known what procname pidfile sn w :
  SERVICE_DEFS !! what = Some (procname, pidfile) →
  let w1 := World (match sn with Some sn => N.max (now w) (finished_at E sn) | None => now w end)
                  (log w) (heap w) in
  _started E what sn w =
    match popen E (log w1) (now w1) (pgrep_command procname pidfile) with
    | inl e => (Raise e, World (now w1) (log w ++ [EvPopen (pgrep_command procname pidfile)]) (heap w))
    | inr p =>
        (if (returncode p =? 0)%Z
         then match parse_pids (python E) (stdout p) with
              | inr pids => Ok (true, pids)
              | inl e => Raise e
              end
         else Ok (false, []),
         World (now w1 + elapsed p) (log w ++ [EvPopen (pgrep_command procname pidfile)]) (heap w))
    end.
Proof.
  intros H w1. unfold _started. rewrite H.
  unfold mbind, M_bind, mret, M_ret, join, wait_until, Popen.
  destruct sn as [sn|]; simpl; fold w1;
    (destruct (popen E (log w) _ (pgrep_command procname pidfile)) as [e|p];
     [reflexivity|]; simpl; destruct (returncode p =? 0)%Z; [|done];
     by destruct (parse_pids (python E) (stdout p))).
Qed.

(** [_started] never touches the heap, and what it gives is a match with
    its pids or no match and no pid. *)
Lemma _started_result what sn w r w' :
  _started E what sn w = (r, w') →
  heap w' = heap w ∧
  match r with
  | Ok (running, pids) => running = false → pids = []
  | Raise _ => True
  end.
Proof.
  destruct (SERVICE_DEFS !! what) as [[procname pidfile]|] eqn:H.
  - rewrite (_started_known _ _ _ _ _ H). simpl.
    destruct (popen E _ _ _) as [e|p]; intros [= <- <-]; simpl; [done|].
    split; [done|]. destruct (returncode p =? 0)%Z; [|done].
    by destruct (parse_pids (python E) (stdout p)).
  - rewrite _started_unknown by done. by intros [= <- <-].
Qed.

Lemma _system_spec cmd w :
  _system E cmd w =
    match popen E (log w) (now w) cmd with
    | inl e => (Raise e, World (now w) (log w ++ [EvPopen cmd]) (heap w))
    | inr p => (Ok (returncode p),
                World (now w + elapsed p) (log w ++ [EvPopen cmd]) (heap w))
    end.
Proof.
  unfold _system, Popen, mbind, M_bind, mret, M_ret.
  by destruct (popen E (log w) (now w) cmd).
Qed.

Lemma _system_Raise cmd w e w' :
  _system E cmd w = (Raise e, w') →
  popen E (log w) (now w) cmd = inl e ∧ log w' = (log w ++ [EvPopen cmd])%list.
Proof.
  rewrite _system_spec. destruct (popen E (log w) (now w) cmd); [|discriminate].
  by intros [= <- <-].
Qed.

Lemma _system_log cmd w r w' :
  _system E cmd w = (r, w') → log w' = (log w ++ [EvPopen cmd])%list.
Proof.
  rewrite _system_spec. destruct (popen E (log w) (now w) cmd); by intros [= <- <-].
Qed.

End DispatcherFacts.

(** ** Services without table entry, marker file or verb *)

(** C10. A service name with no entry in [SERVICE_DEFS] and no
    [_started_<name>] method: the started query gives False, [_started] gives
    False with an empty pid list and runs no command (the world is left as it
    was), and [_started_notify] starts no watcher and gives None. *)
Theorem unknown_service_is_not_started
    (E : environment) (attrs : string → option (M pyval)) (what : string) :
  SERVICE_DEFS !! what = None →
  attrs ("_started_" +:+ what) = None →
  ∀ (sn : option StartNotify) (verb : string) (w : world),
    started E attrs what sn w = (Ok (VBool false), w) ∧
    _started E what sn w = (Ok (false, []), w) ∧
    _started_notify verb what w = (Ok None, w).
Proof.
  intros Hdefs Hattr sn verb w. split_and!.
  - unfold started. rewrite Hattr.
    by rewrite (bind_Ok _ _ _ _ _ (_started_unknown E what sn w Hdefs)).
  - by apply _started_unknown.
  - unfold _started_notify. by rewrite Hdefs.
Qed.

Lemma unknown_service_is_not_started_witness :
  started Demo.env (class_attrs Demo.env) "collectd" None Demo.w0 = (Ok (VBool false), Demo.w0) ∧
  _started Demo.env "collectd" None Demo.w0 = (Ok (false, []), Demo.w0) ∧
  _started_notify "stop" "collectd" Demo.w0 = (Ok None, Demo.w0).
Proof.
  refine (unknown_service_is_not_started Demo.env (class_attrs Demo.env) "collectd" _ _
            None "stop" Demo.w0);
    vm_compute; reflexivity.
Defined.


(** C7. A service of the table with no marker file: its watcher polls
    nothing and sleeps nothing, it ends at the very time it was started, so
    that joining it afterwards returns at once ([_started] with the watcher
    does what it does without one), and the lookup is pgrep on the process
    name alone. *)
Theorem no_marker_file_no_wait
    (E : environment) (what : string) (procname : option string) :
  SERVICE_DEFS !! what = Some (procname, None) →
  ∀ (verb : string) (w : world),
    let sn := Build_StartNotify None verb (now w) in
    _started_notify verb what w =
      (Ok (Some sn), World (now w) (log w ++ [EvThread verb None]) (heap w)) ∧
    run E sn = (0%nat, false, Watch (now w) []) ∧
    polls (run E sn).2 = 0%nat ∧
    finished_at E sn = now w ∧
    ∀ w', now w ≤ now w' →
      _started E what (Some sn) w' = _started E what None w' ∧
      _started E what None w' =
        (proc ← Popen E ("/bin/pgrep " +:+ fmt procname);
         if (returncode proc =? 0)%Z
         then pids ← lift_sum (parse_pids (python E) (stdout proc)); mret (true, pids)
         else mret (false, [])) w'.
Proof.
  intros Hdefs verb w sn. split_and!.
  - unfold _started_notify. by rewrite Hdefs.
  - reflexivity.
  - reflexivity.
  - reflexivity.
  - intros w' Hle. split.
    + rewrite !(_started_known E what procname None _ _ Hdefs). simpl.
      change (finished_at E sn) with (now w). by rewrite N.max_l.
    + unfold _started. rewrite Hdefs. unfold mbind at 1. unfold M_bind at 1.
      unfold mret at 1. unfold M_ret at 1. by destruct w'.
Qed.

Lemma no_marker_file_no_wait_witness :
  run Demo.env (Build_StartNotify None "start" (now Demo.w0)) =
    (0%nat, false, Watch (now Demo.w0) []) ∧
  finished_at Demo.env (Build_StartNotify None "start" (now Demo.w0)) = now Demo.w0.
Proof.
  assert (H : SERVICE_DEFS !! "nfs" = Some (Some "nfsd", None)) by (vm_compute; reflexivity).
  destruct (no_marker_file_no_wait Demo.env "nfs" (Some "nfsd") H "start" Demo.w0)
    as (_ & H1 & _ & H2 & _).
  exact (conj H1 H2).
Defined.


(** C6. [_simplecmd] with a verb that is none of start, stop, restart and
    reload, for which the class has no method: it raises
    ValueError("Internal error: Unknown command"), and by then it has only
    written its debug line: no command has been run. For the four verbs on
    the same generic path, whatever [_simplecmd] raises was raised by a
    command it tried to run, so the two kinds of failure do not mix. *)
Theorem unknown_verb_is_rejected
    (E : environment) (attrs : string → option (M pyval)) (action what : string) (w : world) :
  attrs ("_" +:+ action +:+ "_" +:+ what) = None →
  (generic_verb action = false →
     _simplecmd E attrs action what w =
       (Raise (ValueError "Internal error: Unknown command"),
        World (now w) (log w ++ [EvDebug ("Calling: " +:+ action +:+ "(" +:+ what +:+ ") ")])
              (heap w))) ∧
  (generic_verb action = true →
     ∀ e w', _simplecmd E attrs action what w = (Raise e, w') →
       ∃ lg t cmd, popen E lg t cmd = inl e ∧ EvPopen cmd ∈ log w').
Proof.
  intros Hattr. split.
  - intros Hverb. unfold _simplecmd. rewrite Hattr, Hverb.
    destruct (SERVICE_DEFS !! what) as [[procname pidfile]|]; reflexivity.
  - intros Hverb e w'. unfold _simplecmd. rewrite Hattr, Hverb.
    set (what' := match SERVICE_DEFS !! what with
                  | Some (procname, _) => if nonempty procname then fmt procname else what
                  | None => what end).
    unfold debug, emit. unfold mbind at 1 2. unfold M_bind at 1 2. simpl.
    set (w0 := World _ _ _).
    destruct (String.eqb action "restart").
    + unfold mbind at 1 2 3. unfold M_bind at 1 2 3.
      destruct (_system E ("/usr/sbin/service " +:+ what' +:+ " forcestop ") w0)
        as [[rc1|e1] w1] eqn:H1; simpl.
      * destruct (_system E ("/usr/sbin/service " +:+ what' +:+ " " +:+ action) w1)
          as [[rc2|e2] w2] eqn:H2; simpl; [discriminate|].
        intros [= <- <-]. apply _system_Raise in H2 as [H2 Hlog].
        do 3 eexists. split; [exact H2|]. rewrite Hlog. apply elem_of_app. right. by apply list_elem_of_singleton.
      * intros [= <- <-]. apply _system_Raise in H1 as [H1 Hlog].
        do 3 eexists. split; [exact H1|]. rewrite Hlog. apply elem_of_app. right. by apply list_elem_of_singleton.
    + unfold mbind at 1 2. unfold M_bind at 1 2. simpl.
      destruct (_system E ("/usr/sbin/service " +:+ what' +:+ " " +:+ action) w0)
        as [[rc2|e2] w2] eqn:H2; simpl; [discriminate|].
      intros [= <- <-]. apply _system_Raise in H2 as [H2 Hlog].
      do 3 eexists. split; [exact H2|]. rewrite Hlog. apply elem_of_app. right. by apply list_elem_of_singleton.
Qed.

Lemma unknown_verb_is_rejected_witness :
  _simplecmd Demo.env (class_attrs Demo.env) "status" "ssh" Demo.w0 =
    (Raise (ValueError "Internal error: Unknown command"),
     World (now Demo.w0)
       (log Demo.w0 ++ [EvDebug ("Calling: " +:+ "status" +:+ "(" +:+ "ssh" +:+ ") ")])
       (heap Demo.w0)).
Proof.
  refine (proj1 (unknown_verb_is_rejected Demo.env (class_attrs Demo.env)
                   "status" "ssh" Demo.w0 _) _);
    vm_compute; reflexivity.
Defined.

(** ** Reload *)

Section GenericPath.

Variable E : environment.
Variable attrs : string → option (M pyval).




End GenericPath.




(** ** What the four verbs return *)

Section PerformFacts.

Variable E : environment.
Variable attrs : string → option (M pyval).

(** Without a [_started_<service>] method, [started] gives the first
    component of what [_started] gives, as a bool. *)
Lemma started_generic what sn w v w' :
  attrs ("_started_" +:+ what) = None →
  started E attrs what sn w = (Ok v, w') →
  ∃ running pids, _started E what sn w = (Ok (running, pids), w') ∧ v = VBool running.
Proof.
  intros Hattr. unfold started. rewrite Hattr. intros H.
  apply bind_inv_Ok in H as ([running pids] & w1 & H1 & H2).
  injection H2 as <- <-. eauto.
Qed.

End PerformFacts.

(** C8, as the code has it. For a service with no [_started_<service>]
    method, each of [start], [stop], [restart] and [reload], when it
    returns, returns a bool: the first component of the pair that the last
    [_started] check gave. The pid list of that pair is dropped, and no state
    is attached. *)
Theorem perform_returns_the_started_flag
    (E : environment) (attrs : string → option (M pyval)) (service : string) :
  attrs ("_started_" +:+ service) = None →
  ∀ (perform : string → M pyval) (w w' : world) (v : pyval),
    perform = start E attrs ∨ perform = stop E attrs ∨
    perform = restart E attrs ∨ perform = reload E attrs →
    perform service w = (Ok v, w') →
    ∃ sn w1 running pids,
      _started E service sn w1 = (Ok (running, pids), w') ∧ v = VBool running.
Proof.
  intros Hattr perform w w' v Hperform Hrun.
  assert (Hlast : ∀ sn w1, started E attrs service sn w1 = (Ok v, w') →
            ∃ sn w1 running pids,
              _started E service sn w1 = (Ok (running, pids), w') ∧ v = VBool running).
  { intros sn w1 H. destruct (started_generic E attrs service sn w1 v w' Hattr H)
      as (running & pids & H1 & H2). eauto 6. }
  destruct Hperform as [-> | [-> | [-> | ->]]].
  - unfold start in Hrun.
    apply bind_inv_Ok in Hrun as (? & ? & _ & Hrun).
    apply bind_inv_Ok in Hrun as (sn & ? & _ & Hrun).
    apply bind_inv_Ok in Hrun as (? & w1 & _ & Hrun). eauto.
  - unfold stop in Hrun.
    apply bind_inv_Ok in Hrun as (? & ? & _ & Hrun).
    apply bind_inv_Ok in Hrun as (sn & ? & _ & Hrun).
    apply bind_inv_Ok in Hrun as (? & w1 & _ & Hrun). eauto.
  - unfold restart in Hrun.
    apply bind_inv_Ok in Hrun as (? & ? & _ & Hrun).
    apply bind_inv_Ok in Hrun as (sn & ? & _ & Hrun).
    apply bind_inv_Ok in Hrun as (? & w1 & _ & Hrun). eauto.
  - unfold reload in Hrun.
    apply bind_inv_Ok in Hrun as (? & ? & _ & Hrun).
    apply bind_inv_Ok in Hrun as (? & w1 & _ & Hrun). eauto.
Qed.



Lemma perform_returns_the_started_flag_witness :
  ∃ sn w1 running pids,
    _started Demo.env "nfs" sn w1 = (Ok (running, pids), nfs_final_world) ∧
    VBool true = VBool running.
Proof.
  refine (perform_returns_the_started_flag Demo.env (class_attrs Demo.env) "nfs" _
            (start Demo.env (class_attrs Demo.env)) Demo.w0 nfs_final_world (VBool true)
            (or_introl eq_refl) _);
    vm_compute; reflexivity.
Defined.

(** C8, as stated, fails: [start("nfs")] returns the bool True, which is
    no ServiceStatus: it carries neither a state nor a pid list. *)
Lemma perform_returns_a_bool :
  start Demo.env (class_attrs Demo.env) "nfs" Demo.w0 = (Ok (VBool true), nfs_final_world) ∧
  is_ServiceStatus (heap nfs_final_world) (VBool true) = false.
Proof. vm_compute. split; reflexivity. Qed.

(** ** Status resolution *)

Section StatusFacts.

Variable E : environment.


Lemma setitem_twice service state pids w :
  (setitem service "state" (VStr state) ≫= λ _,
     setitem service "pids" (VList (VInt <$> pids)) ≫= λ _, mret (VRef service)) w =
  (Ok (VRef service), World (now w) (log w) (with_status service state pids (heap w))).
Proof.
  unfold mbind, M_bind, mret, M_ret, setitem, with_status. simpl.
  rewrite lookup_insert_eq. simpl. by rewrite insert_insert_eq.
Qed.

(** [_get_status] on a row whose [service] is a string, in terms of what
    [_started] gives. *)
Lemma _get_status_spec service what w :
  heap w !! service ≫= (.!! "service") = Some (VStr what) →
  _get_status E service w =
    match _started E what None w with
    | (Raise e, w1) => (Raise e, w1)
    | (Ok (true, pids), w1) =>
        (Ok (VRef service),
         World (now w1) (log w1) (with_status service "RUNNING" pids (heap w1)))
    | (Ok (false, pids), w1) =>
        match heap w1 !! service ≫= (.!! "enable") with
        | None => (Raise (KeyError "enable"), w1)
        | Some enable =>
            (Ok (VRef service),
             World (now w1) (log w1)
               (with_status service
                  (if truthy (heap w1) enable then "CRASHED" else "STOPPED") pids (heap w1)))
        end
    end.
Proof.
  intros Hname. unfold _get_status.
  unfold mbind at 1. unfold M_bind at 1. unfold getitem at 1. rewrite Hname.
  unfold mbind at 1. unfold M_bind at 1.
  destruct (_started E what None w) as [[[running pids]|e] w1].
  2: reflexivity.
  destruct running.
  - unfold mbind at 1. unfold M_bind at 1. unfold mret at 1. unfold M_ret at 1.
    apply setitem_twice.
  - destruct (heap w1 !! service ≫= (.!! "enable")) as [enable|] eqn:Hen.
    + erewrite bind_Ok; [apply setitem_twice|].
      erewrite bind_Ok; [|unfold getitem; by rewrite Hen]. reflexivity.
    + erewrite bind_Raise; [reflexivity|].
      erewrite bind_Raise; [reflexivity|]. unfold getitem. by rewrite Hen.
Qed.

End StatusFacts.

(** C1. [_get_status] on a row with a service name and an enabled flag: the
    state it writes is a function of whether [_started] found a process and
    of the flag, RUNNING when found, else CRASHED when enabled and STOPPED
    when not; the pids it writes are those [_started] gave, which are the
    ids pgrep printed when a process was found and none when not. Found means
    that the service is in the table and that its pgrep ended with status
    0. When the lookup itself raises, so does [_get_status]. *)
Theorem get_status_resolves_state
    (E : environment) (service : loc) (what : string) (enable : pyval) (w : world) :
  heap w !! service ≫= (.!! "service") = Some (VStr what) →
  heap w !! service ≫= (.!! "enable") = Some enable →
  match _started E what None w with
  | (Ok (found, pids), w1) =>
      _get_status E service w =
        (Ok (VRef service),
         World (now w1) (log w1)
           (with_status service (resolve_state found (truthy (heap w) enable)) pids (heap w))) ∧
      (found = false → pids = []) ∧
      (found = true ↔
         ∃ procname pidfile p,
           SERVICE_DEFS !! what = Some (procname, pidfile) ∧
           popen E (log w) (now w) (pgrep_command procname pidfile) = inr p ∧
           returncode p = 0%Z ∧ parse_pids (python E) (stdout p) = inr pids)
  | (Raise e, w1) => _get_status E service w = (Raise e, w1)
  end.
Proof.
  intros Hname Henable. rewrite (_get_status_spec E service what w Hname).
  pose proof (_started_result E what None w) as Hres.
  destruct (SERVICE_DEFS !! what) as [[procname pidfile]|] eqn:Hdefs.
  - rewrite (_started_known E what procname pidfile None w Hdefs) in *. simpl in *.
    destruct (popen E (log w) (now w) (pgrep_command procname pidfile)) as [e|p] eqn:Hp;
      [reflexivity|].
    destruct (returncode p =? 0)%Z eqn:Hrc; simpl.
    + destruct (parse_pids (python E) (stdout p)) as [e|pids] eqn:Hpids; [reflexivity|].
      split_and!; [reflexivity | discriminate |].
      split; [intros _|done]. apply Z.eqb_eq in Hrc. eauto 10.
    + rewrite Henable. split_and!; [reflexivity | done |].
      split; [discriminate|].
      intros (pn & pf & p' & [= <- <-] & Hp' & Hrc' & _).
      rewrite Hp in Hp'. injection Hp' as <-. rewrite Hrc' in Hrc. discriminate.
  - rewrite (_started_unknown E what None w Hdefs). rewrite Henable.
    split_and!; [reflexivity | done |].
    split; [discriminate|]. by intros (pn & pf & p' & [=] & _).
Qed.


Lemma get_status_resolves_state_witness :
  _get_status Demo.env 1%nat Demo.w0 = (Ok (VRef 1%nat), nfs_row_resolved).
Proof.
  pose proof (get_status_resolves_state Demo.env 1%nat "nfs" (VBool false) Demo.w0
                eq_refl eq_refl) as H.
  assert (Hst : _started Demo.env "nfs" None Demo.w0 =
                  (Ok (true, [812; 813]%Z), World 1 [EvPopen "/bin/pgrep nfsd"] Demo.heap0))
    by (vm_compute; reflexivity).
  rewrite Hst in H. destruct H as [H _]. rewrite H. vm_compute. reflexivity.
Defined.

(** ** The heap after a status has been written *)

Lemma with_status_other service state pids (h : heap_t) (l : loc) :
  l ≠ service → with_status service state pids h !! l = h !! l.
Proof. intros Hne. unfold with_status. by rewrite lookup_insert_ne. Qed.

Lemma with_status_key service state pids (h : heap_t) (key : string) :
  key ≠ "state" → key ≠ "pids" →
  with_status service state pids h !! service ≫= (.!! key) = h !! service ≫= (.!! key).
Proof.
  intros H1 H2. unfold with_status. rewrite lookup_insert_eq. simpl.
  rewrite !lookup_insert_ne by done. by destruct (h !! service).
Qed.

Lemma with_status_state service state pids (h : heap_t) :
  with_status service state pids h !! service ≫= (.!! "state") = Some (VStr state).
Proof.
  unfold with_status. rewrite lookup_insert_eq. simpl.
  rewrite lookup_insert_ne by done. by rewrite lookup_insert_eq.
Qed.

Lemma with_status_pids service state pids (h : heap_t) :
  with_status service state pids h !! service ≫= (.!! "pids") = Some (VList (VInt <$> pids)).
Proof. unfold with_status. rewrite lookup_insert_eq. simpl. by rewrite lookup_insert_eq. Qed.

(** What [with_status] leaves alone: other rows, and the other keys of the
    row. *)
Lemma with_status_frame service state pids (h : heap_t) (l : loc) (key : string) :
  l ≠ service ∨ (key ≠ "state" ∧ key ≠ "pids") →
  with_status service state pids h !! l ≫= (.!! key) = h !! l ≫= (.!! key).
Proof.
  intros H. destruct (decide (l = service)) as [->|Hne].
  - destruct H as [?|[? ?]]; [done|]. by apply with_status_key.
  - by rewrite with_status_other.
Qed.

(** ** One resolution, whatever the heap *)

(** When and with which log [_started] ends does not depend on the heap,
    which it hands on as it found it. *)
Lemma _started_heap_indep (E : environment) what sn t lg :
  ∃ r t' lg', ∀ h, _started E what sn (World t lg h) = (r, World t' lg' h).
Proof.
  destruct (SERVICE_DEFS !! what) as [[procname pidfile]|] eqn:Hdefs.
  - set (t1 := match sn with Some sn => N.max t (finished_at E sn) | None => t end).
    destruct (popen E lg t1 (pgrep_command procname pidfile)) as [e|p] eqn:Hp.
    + exists (Raise e), t1, (lg ++ [EvPopen (pgrep_command procname pidfile)])%list. intros h.
      rewrite (_started_known E what procname pidfile sn _ Hdefs). simpl. fold t1.
      by rewrite Hp.
    + eexists _, (t1 + elapsed p), (lg ++ [EvPopen (pgrep_command procname pidfile)])%list.
      intros h. rewrite (_started_known E what procname pidfile sn _ Hdefs). simpl.
      fold t1. rewrite Hp. reflexivity.
  - exists (Ok (false, [])), t, lg. intros h. by apply _started_unknown.
Qed.

(** The rest of [_get_status], once the lookup has given [(running, pids)]
    in the world [w1]. *)
Lemma _get_status_tail service (running : bool) (pids : list Z) w1 :
  ∃ r h',
    ((if running then mret "RUNNING"
      else enable ← getitem service "enable"; h ← get_heap;
           mret (if truthy h enable then "CRASHED" else "STOPPED")) ≫= λ state : string,
       setitem service "state" (VStr state) ≫= λ _,
       setitem service "pids" (VList (VInt <$> pids)) ≫= λ _, mret (VRef service)) w1 =
      (r, World (now w1) (log w1) h') ∧
    ((r = Ok (VRef service) ∧ ∃ state, h' = with_status service state pids (heap w1)) ∨
     (∃ ex, r = Raise ex ∧ h' = heap w1)).
Proof.
  destruct running.
  - eexists _, _. split.
    + erewrite bind_Ok; [apply setitem_twice|reflexivity].
    + left. eauto.
  - destruct (heap w1 !! service ≫= (.!! "enable")) as [enable|] eqn:Hen.
    + eexists _, _. split.
      * erewrite bind_Ok; [apply setitem_twice|].
        erewrite bind_Ok; [|unfold getitem; by rewrite Hen]. reflexivity.
      * left. eauto.
    + exists (Raise (KeyError "enable")), (heap w1). split.
      * erewrite bind_Raise; [|erewrite bind_Raise; [reflexivity|unfold getitem; by rewrite Hen]].
        destruct w1; reflexivity.
      * right. eauto.
Qed.

(** [_get_status] in any heap: when it ends and what it logs depend on the
    row's [service] entry only; it returns the row it was given after
    writing a status into it, or raises and leaves the heap as it was. *)
Lemma _get_status_shape (E : environment) service t lg (sv : option pyval) :
  ∃ t' lg', ∀ h,
    h !! service ≫= (.!! "service") = sv →
    ∃ r h',
      _get_status E service (World t lg h) = (r, World t' lg' h') ∧
      ((r = Ok (VRef service) ∧ ∃ state pids, h' = with_status service state pids h) ∨
       (∃ ex, r = Raise ex ∧ h' = h)).
Proof.
  assert (Hplain : ∀ v, (∀ w, (match v with
             | VStr what => _started E what None
             | VList _ | VDict _ | VRef _ => raise (TypeError "unhashable type")
             | _ => mret (false, [])
             end) w = (Ok (false, []), w)) →
           ∀ h, h !! service ≫= (.!! "service") = Some v →
           ∃ r h', _get_status E service (World t lg h) = (r, World t lg h') ∧
             ((r = Ok (VRef service) ∧ ∃ state pids, h' = with_status service state pids h) ∨
              (∃ ex, r = Raise ex ∧ h' = h))).
  { intros v Hv h Hs.
    destruct (_get_status_tail service false [] (World t lg h)) as (r & h' & Hrun & Hres).
    exists r, h'. split.
    - unfold _get_status. erewrite bind_Ok; [|unfold getitem; simpl; by rewrite Hs].
      erewrite bind_Ok; [|apply Hv]. exact Hrun.
    - destruct Hres as [[-> [state ->]]|Hres]; [left|right]; eauto. }
  assert (Hraise : ∀ v, (∀ w, (match v with
             | VStr what => _started E what None
             | VList _ | VDict _ | VRef _ => raise (TypeError "unhashable type")
             | _ => mret (false, [])
             end) w = (Raise (TypeError "unhashable type"), w)) →
           ∀ h, h !! service ≫= (.!! "service") = Some v →
           ∃ r h', _get_status E service (World t lg h) = (r, World t lg h') ∧
             ((r = Ok (VRef service) ∧ ∃ state pids, h' = with_status service state pids h) ∨
              (∃ ex, r = Raise ex ∧ h' = h))).
  { intros v Hv h Hs. eexists _, _. split.
    - unfold _get_status. erewrite bind_Ok; [|unfold getitem; simpl; by rewrite Hs].
      erewrite bind_Raise; [reflexivity|apply Hv].
    - right. eauto. }
  destruct sv as [v|].
  2: { exists t, lg. intros h Hs. eexists _, _. split.
       - unfold _get_status. erewrite bind_Raise; [reflexivity|].
         unfold getitem. simpl. by rewrite Hs.
       - right. eauto. }
  destruct v as [|b|z|what|l|l|d|l];
    try (exists t, lg; apply Hplain; reflexivity);
    try (exists t, lg; apply Hraise; reflexivity).
  destruct (_started_heap_indep E what None t lg) as (r0 & t' & lg' & Hst).
  exists t', lg'. intros h Hs.
  destruct r0 as [[running pids]|e].
  - destruct (_get_status_tail service running pids (World t' lg' h)) as (r & h' & Hrun & Hres).
    exists r, h'. split.
    + unfold _get_status. erewrite bind_Ok; [|unfold getitem; simpl; by rewrite Hs].
      erewrite bind_Ok; [|apply Hst]. exact Hrun.
    + destruct Hres as [[-> [state ->]]|Hres]; [left|right]; eauto.
  - eexists _, _. split.
    + unfold _get_status. erewrite bind_Ok; [|unfold getitem; simpl; by rewrite Hs].
      erewrite bind_Raise; [reflexivity|apply Hst].
    + right. eauto.
Qed.

(** ** The greenlets of [query] *)

Section AggregatorFacts.

Variable E : environment.
Variable w0 : world.
Variable timeout : N.

Lemma joinall_spec jobs : ∀ acc,
  joined w0 timeout acc →
  joined w0 timeout (joinall E w0 timeout jobs acc).2 ∧
  length (joinall E w0 timeout jobs acc).1 = length jobs ∧
  ∀ (i : nat) entry, jobs !! i = Some entry →
    ((joinall E w0 timeout jobs acc).1 !! i = Some None ∨
     (joinall E w0 timeout jobs acc).1 !! i = Some (Some (VRef entry))) ∧
    (now w0 + timeout < finishes_at E w0 entry →
     (joinall E w0 timeout jobs acc).1 !! i = Some None).
Proof.
  induction jobs as [|entry jobs IH]; intros acc [Hsv Hnow].
  - simpl. split_and!; [done..|]. intros i e Hi. by rewrite lookup_nil in Hi.
  - simpl. unfold greenlet_run, finishes_at, greenlet_run.
    destruct (_get_status_shape E entry (now w0) (log w0)
                (heap w0 !! entry ≫= (.!! "service"))) as (t' & lg' & Hshape).
    destruct (Hshape (heap acc) (Hsv entry)) as (r & h' & Hrun & Hres).
    destruct (Hshape (heap w0) eq_refl) as (r0 & h0 & Hrun0 & _).
    rewrite Hrun. simpl.
    set (acc' := World _ _ _).
    assert (Hacc' : joined w0 timeout acc').
    { split; [|simpl; lia].
      intros l. simpl. destruct (t' <=? now w0 + timeout); [|apply Hsv].
      destruct Hres as [[_ (state & pids & ->)]|(ex & _ & ->)]; [|apply Hsv].
      rewrite with_status_frame by (right; done). apply Hsv. }
    specialize (IH acc' Hacc') as (IH1 & IH2 & IH3).
    destruct (joinall E w0 timeout jobs acc') as [values w'] eqn:Hj. simpl in *.
    split_and!; [done | by rewrite IH2 |].
    intros [|i] e Hi; simpl in *.
    + injection Hi as <-. split.
      * unfold greenlet_value. destruct (t' <=? now w0 + timeout); [|by left].
        destruct Hres as [[-> _]|(ex & -> & _)]; [by right | by left].
      * destruct w0 as [t0 lg0 h00]. simpl in *. rewrite Hrun0. simpl. intros Hlate.
        unfold greenlet_value. by rewrite (proj2 (N.leb_gt _ _) Hlate).
    + unfold finishes_at, greenlet_run in IH3. by apply IH3.
Qed.

End AggregatorFacts.

Lemma result_spec entry value w :
  value = None ∨ value = Some (VRef entry) →
  result entry value w =
    (Ok (VRef entry),
     World (now w) (log w)
       (match value with
        | None => with_status entry "UNKNOWN" [] (heap w)
        | Some _ => heap w
        end)).
Proof.
  intros [-> | ->].
  - unfold result. apply (setitem_twice entry "UNKNOWN" [] w).
  - by destruct w.
Qed.

Lemma row_unknown_with_status entry e (h : heap_t) :
  row_unknown h e → row_unknown (with_status entry "UNKNOWN" [] h) e.
Proof.
  intros [H1 H2]. destruct (decide (e = entry)) as [->|Hne].
  - split; [apply with_status_state | apply with_status_pids].
  - unfold row_unknown. by rewrite !with_status_other.
Qed.

(** [Group().map(result, jobs)]: it gives back the rows themselves, in
    order, and leaves every row whose greenlet had no value marked UNKNOWN
    with no pid. *)
Lemma map_result_spec jobs : ∀ (values : list (option pyval)) w,
  length values = length jobs →
  (∀ (i : nat) entry, jobs !! i = Some entry →
     values !! i = Some None ∨ values !! i = Some (Some (VRef entry))) →
  ∃ h',
    map_M (λ job, result job.1 job.2) (zip jobs values) w =
      (Ok (VRef <$> jobs), World (now w) (log w) h') ∧
    (∀ e, row_unknown (heap w) e → row_unknown h' e) ∧
    (∀ (i : nat) entry, jobs !! i = Some entry → values !! i = Some None →
       row_unknown h' entry).
Proof.
  induction jobs as [|entry jobs IH]; intros values w Hlen Hval.
  - exists (heap w). destruct values; [|done]. split_and!.
    + by destruct w.
    + done.
    + intros i e Hi. by rewrite lookup_nil in Hi.
  - destruct values as [|value values]; [done|]. simpl in Hlen.
    assert (Hvalue : value = None ∨ value = Some (VRef entry)).
    { destruct (Hval 0%nat entry eq_refl) as [[= ->]|[= ->]]; auto. }
    pose proof (result_spec entry value w Hvalue) as Hr.
    set (w1 := World _ _ _) in Hr.
    destruct (IH values w1 ltac:(lia) (λ i e Hi, Hval (S i) e Hi)) as (h' & Hrun & Hkeep & Hunk).
    exists h'. split_and!.
    + simpl. erewrite bind_Ok; [|exact Hr]. erewrite bind_Ok; [|exact Hrun]. reflexivity.
    + intros e He. apply Hkeep. subst w1. simpl.
      destruct value; [done|]. by apply row_unknown_with_status.
    + intros [|i] e Hi Hv; simpl in *.
      * injection Hi as <-. injection Hv as ->. apply Hkeep. subst w1. simpl.
        split; [apply with_status_state | apply with_status_pids].
      * by eapply Hunk.
Qed.

(** ** Resolutions that end in time *)

Lemma with_status_same_columns entry state pids (h h0 : heap_t) :
  same_columns h h0 → same_columns (with_status entry state pids h) h0.
Proof.
  intros H l key H1 H2. rewrite with_status_frame by (right; done). by apply H.
Qed.

Lemma with_status_resolved entry state pids (h : heap_t) :
  row_resolved (with_status entry state pids h) entry state pids.
Proof. split; [apply with_status_state | apply with_status_pids]. Qed.

(** A resolution on a row with a name and a boolean flag, in any heap that
    has them, given what the lookup finds. *)
Lemma _get_status_resolved (E : environment) entry what (b found : bool) pids t lg h0 h w1 :
  h !! entry ≫= (.!! "service") = Some (VStr what) →
  h !! entry ≫= (.!! "enable") = Some (VBool b) →
  _started E what None (World t lg h0) = (Ok (found, pids), w1) →
  _get_status E entry (World t lg h) =
    (Ok (VRef entry),
     World (now w1) (log w1) (with_status entry (resolve_state found b) pids h)).
Proof.
  intros Hs He Hst.
  destruct (_started_heap_indep E what None t lg) as (r & t' & lg' & Hindep).
  rewrite Hindep in Hst. injection Hst as -> <-.
  rewrite (_get_status_spec E entry what (World t lg h) Hs), Hindep. simpl.
  destruct found; [done|]. rewrite He. by destruct b.
Qed.

Section TimelyRows.

Variable E : environment.
Variable w0 : world.
Variable timeout : N.

Lemma joinall_resolved jobs : ∀ acc,
  same_columns (heap acc) (heap w0) →
  same_columns (heap (joinall E w0 timeout jobs acc).2) (heap w0) ∧
  (∀ l, l ∉ jobs → heap (joinall E w0 timeout jobs acc).2 !! l = heap acc !! l) ∧
  (NoDup jobs →
   ∀ (i : nat) entry what (b found : bool) pids w1,
     jobs !! i = Some entry →
     heap w0 !! entry ≫= (.!! "service") = Some (VStr what) →
     heap w0 !! entry ≫= (.!! "enable") = Some (VBool b) →
     _started E what None w0 = (Ok (found, pids), w1) →
     now w1 ≤ now w0 + timeout →
     (joinall E w0 timeout jobs acc).1 !! i = Some (Some (VRef entry)) ∧
     row_resolved (heap (joinall E w0 timeout jobs acc).2) entry
       (resolve_state found b) pids).
Proof.
  induction jobs as [|entry jobs IH]; intros acc Hcols.
  - simpl. split_and!; [done | done |]. intros _ i e ? ? ? ? ? Hi. by rewrite lookup_nil in Hi.
  - simpl. unfold greenlet_run.
    destruct (_get_status_shape E entry (now w0) (log w0)
                (heap w0 !! entry ≫= (.!! "service"))) as (t' & lg' & Hshape).
    destruct (Hshape (heap acc)) as (r & h' & Hrun & Hres).
    { apply Hcols; done. }
    rewrite Hrun. simpl.
    set (acc' := World _ _ _).
    assert (Hacc' : same_columns (heap acc') (heap w0)).
    { subst acc'. simpl. destruct (t' <=? now w0 + timeout); [|done].
      destruct Hres as [[_ (state & pids & ->)]|(ex & _ & ->)]; [|done].
      by apply with_status_same_columns. }
    assert (Hother : ∀ l, l ≠ entry → heap acc' !! l = heap acc !! l).
    { intros l Hl. subst acc'. simpl. destruct (t' <=? now w0 + timeout); [|done].
      destruct Hres as [[_ (state & pids & ->)]|(ex & _ & ->)]; [|done].
      by apply with_status_other. }
    specialize (IH acc' Hacc') as (IH1 & IH2 & IH3).
    destruct (joinall E w0 timeout jobs acc') as [values w'] eqn:Hj. simpl in *.
    split_and!; [done | |].
    + intros l Hl. apply not_elem_of_cons in Hl as [Hne Hl].
      rewrite IH2 by done. by apply Hother.
    + intros [Hnotin Hnodup]%NoDup_cons [|i] e what b found pids w1 Hi Hs He Hst Htime;
        simpl in *.
      * injection Hi as <-.
        destruct w0 as [t0 lg0 h00] eqn:Hw0. simpl in *.
        pose proof (_get_status_resolved E entry what b found pids t0 lg0 h00 (heap acc) w1
                      ltac:(by rewrite Hcols) ltac:(by rewrite Hcols) Hst) as Hres'.
        rewrite Hres' in Hrun. injection Hrun as <- <- <- <-.
        rewrite (proj2 (N.leb_le _ _) Htime) in *. simpl. split; [done|].
        unfold row_resolved. rewrite IH2 by done. subst acc'. simpl.
        apply with_status_resolved.
      * by eapply IH3.
Qed.

End TimelyRows.

(** [Group().map(result, jobs)] leaves alone every row whose greenlet has
    given its value. *)
Lemma map_result_keeps jobs (l : loc) : ∀ (values : list (option pyval)) w,
  length values = length jobs →
  (∀ (i : nat) entry, jobs !! i = Some entry →
     values !! i = Some None ∨ values !! i = Some (Some (VRef entry))) →
  (∀ i : nat, jobs !! i = Some l → values !! i = Some (Some (VRef l))) →
  ∃ h',
    map_M (λ job, result job.1 job.2) (zip jobs values) w =
      (Ok (VRef <$> jobs), World (now w) (log w) h') ∧
    h' !! l = heap w !! l.
Proof.
  induction jobs as [|entry jobs IH]; intros values w Hlen Hval Hl.
  - exists (heap w). destruct values; [|done]. split; [by destruct w | done].
  - destruct values as [|value values]; [done|]. simpl in Hlen.
    assert (Hvalue : value = None ∨ value = Some (VRef entry)).
    { destruct (Hval 0%nat entry eq_refl) as [[= ->]|[= ->]]; auto. }
    pose proof (result_spec entry value w Hvalue) as Hr.
    set (w1 := World _ _ _) in Hr.
    destruct (IH values w1 ltac:(lia) (λ i e Hi, Hval (S i) e Hi) (λ i Hi, Hl (S i) Hi))
      as (h' & Hrun & Hkeep).
    exists h'. split.
    + simpl. erewrite bind_Ok; [|exact Hr]. erewrite bind_Ok; [|exact Hrun]. reflexivity.
    + rewrite Hkeep. subst w1. simpl. destruct value as [v|]; [done|].
      apply with_status_other. intros ->. by specialize (Hl 0%nat eq_refl).
Qed.

(** ** Every row gets a status *)

Lemma is_pid_list_ints (pids : list Z) : is_pid_list (VList (VInt <$> pids)) = true.
Proof. simpl. induction pids as [|pid pids IH]; simpl; [done|exact IH]. Qed.

Lemma with_status_has_status entry state pids (h : heap_t) :
  is_state (VStr state) = true →
  is_ServiceStatus (with_status entry state pids h) (VRef entry) = true.
Proof.
  intros Hstate. unfold is_ServiceStatus.
  rewrite with_status_state, with_status_pids, Hstate. apply is_pid_list_ints.
Qed.

Lemma with_status_keeps_status entry state pids (h : heap_t) (l : loc) :
  is_state (VStr state) = true →
  is_ServiceStatus h (VRef l) = true →
  is_ServiceStatus (with_status entry state pids h) (VRef l) = true.
Proof.
  intros Hstate Hl. destruct (decide (l = entry)) as [->|Hne].
  - by apply with_status_has_status.
  - unfold is_ServiceStatus in *. by rewrite with_status_other.
Qed.

Lemma row_unknown_has_status (h : heap_t) (entry : loc) :
  row_unknown h entry → is_ServiceStatus h (VRef entry) = true.
Proof. intros [H1 H2]. unfold is_ServiceStatus. by rewrite H1, H2. Qed.

(** A resolution that returns has written one of the three states it
    resolves to. *)
Lemma _get_status_state (E : environment) service w v w' :
  _get_status E service w = (Ok v, w') →
  ∃ state pids,
    is_state (VStr state) = true ∧ heap w' = with_status service state pids (heap w).
Proof.
  unfold _get_status. intros H.
  apply bind_inv_Ok in H as (what & w1 & Hget & H).
  assert (w1 = w) as ->.
  { unfold getitem in Hget. by destruct (heap w !! service ≫= _); injection Hget as _ <-. }
  apply bind_inv_Ok in H as ([running pids] & w2 & Hlook & H).
  assert (Hheap : heap w2 = heap w).
  { destruct what; try (by injection Hlook as _ _ <-); try done.
    by destruct (_started_result E _ _ _ _ _ Hlook) as [? _]. }
  apply bind_inv_Ok in H as (state & w3 & Hstate & H).
  assert (Hvalid : is_state (VStr state) = true ∧ w3 = w2).
  { destruct running.
    - by injection Hstate as <- <-.
    - apply bind_inv_Ok in Hstate as (enable & w4 & Hen & Hstate).
      assert (w4 = w2) as ->.
      { unfold getitem in Hen. by destruct (heap w2 !! service ≫= _); injection Hen as _ <-. }
      injection Hstate as <- <-. by destruct (truthy _ _). }
  destruct Hvalid as [Hvalid ->].
  rewrite setitem_twice in H. injection H as _ <-. simpl. rewrite Hheap. eauto.
Qed.

(** A resolution that raises has written nothing. *)
Lemma _get_status_Raise (E : environment) service w e w' :
  _get_status E service w = (Raise e, w') → heap w' = heap w.
Proof.
  destruct w as [t lg h]. intros H.
  destruct (_get_status_shape E service t lg (h !! service ≫= (.!! "service")))
    as (t' & lg' & Hshape).
  destruct (Hshape h eq_refl) as (r & h' & Hrun & Hres).
  rewrite Hrun in H. injection H as -> <-. simpl.
  by destruct Hres as [[[=] _]|(ex & _ & ->)].
Qed.

Section Statuses.

Variable E : environment.
Variable w0 : world.
Variable timeout : N.

Lemma joinall_statuses jobs : ∀ acc,
  (∀ l, is_ServiceStatus (heap acc) (VRef l) = true →
        is_ServiceStatus (heap (joinall E w0 timeout jobs acc).2) (VRef l) = true) ∧
  (∀ (i : nat) entry,
     jobs !! i = Some entry →
     (joinall E w0 timeout jobs acc).1 !! i = Some (Some (VRef entry)) →
     is_ServiceStatus (heap (joinall E w0 timeout jobs acc).2) (VRef entry) = true).
Proof.
  induction jobs as [|entry jobs IH]; intros acc.
  - simpl. split; [done|]. intros i e Hi. by rewrite lookup_nil in Hi.
  - simpl. destruct (greenlet_run E w0 entry (heap acc)) as [r w1] eqn:Hrun.
    unfold greenlet_run in Hrun.
    set (acc' := World _ _ _).
    assert (Hkeep : ∀ l, is_ServiceStatus (heap acc) (VRef l) = true →
                         is_ServiceStatus (heap acc') (VRef l) = true).
    { intros l Hl. subst acc'. simpl. destruct (now w1 <=? now w0 + timeout); [|done].
      destruct r as [v|e].
      - destruct (_get_status_state E _ _ _ _ Hrun) as (state & pids & Hvalid & ->).
        by apply with_status_keeps_status.
      - by rewrite (_get_status_Raise E _ _ _ _ Hrun). }
    destruct (IH acc') as [IH1 IH2].
    destruct (joinall E w0 timeout jobs acc') as [values w'] eqn:Hj. simpl in *.
    split.
    + intros l Hl. by apply IH1, Hkeep.
    + intros [|i] e Hi Hv; simpl in *.
      * injection Hi as <-. apply IH1. subst acc'. simpl.
        unfold greenlet_value in Hv.
        destruct (now w1 <=? now w0 + timeout); [|done]. destruct r as [v|ex]; [|done].
        destruct (_get_status_state E _ _ _ _ Hrun) as (state & pids & Hvalid & ->).
        by apply with_status_has_status.
      * by eapply IH2.
Qed.

End Statuses.

Lemma map_result_statuses jobs : ∀ (values : list (option pyval)) w,
  length values = length jobs →
  (∀ (i : nat) entry, jobs !! i = Some entry →
     values !! i = Some None ∨ values !! i = Some (Some (VRef entry))) →
  ∃ h',
    map_M (λ job, result job.1 job.2) (zip jobs values) w =
      (Ok (VRef <$> jobs), World (now w) (log w) h') ∧
    (∀ l, is_ServiceStatus (heap w) (VRef l) = true → is_ServiceStatus h' (VRef l) = true) ∧
    (∀ (i : nat) entry, jobs !! i = Some entry → values !! i = Some None →
       is_ServiceStatus h' (VRef entry) = true).
Proof.
  induction jobs as [|entry jobs IH]; intros values w Hlen Hval.
  - exists (heap w). destruct values; [|done]. split_and!.
    + by destruct w.
    + done.
    + intros i e Hi. by rewrite lookup_nil in Hi.
  - destruct values as [|value values]; [done|]. simpl in Hlen.
    assert (Hvalue : value = None ∨ value = Some (VRef entry)).
    { destruct (Hval 0%nat entry eq_refl) as [[= ->]|[= ->]]; auto. }
    pose proof (result_spec entry value w Hvalue) as Hr.
    set (w1 := World _ _ _) in Hr.
    destruct (IH values w1 ltac:(lia) (λ i e Hi, Hval (S i) e Hi)) as (h' & Hrun & Hkeep & Hunk).
    exists h'. split_and!.
    + simpl. erewrite bind_Ok; [|exact Hr]. erewrite bind_Ok; [|exact Hrun]. reflexivity.
    + intros l Hl. apply Hkeep. subst w1. simpl.
      destruct value; [done|]. by apply with_status_keeps_status.
    + intros [|i] e Hi Hv; simpl in *.
      * injection Hi as <-. injection Hv as ->. apply Hkeep. subst w1. simpl.
        by apply with_status_has_status.
      * by eapply Hunk.
Qed.

(** ** The aggregate query *)

(** C2. [query], once the datastore has given its rows: what it hands to
    the final [filter_list] is the list of those very rows, one per service
    and in the order of the input, and each of them carries a status by
    then: a state among RUNNING, STOPPED, CRASHED and UNKNOWN, and a list of
    pids. [query] is back at most 15 after it started; every row whose
    resolution was to end after the deadline is marked UNKNOWN with an empty
    pid list; a row whose lookup ends in time holds the state it resolves to
    and the pids found (the rows being distinct); and nothing is raised on
    the way, however slow a resolution is: the only thing that can still
    raise is [filter_list]. *)
Theorem query_one_status_per_service
    (E : environment) (filters : pyval) (options : option dict) (w : world) (r : rows) :
  let options' := <["suffix" := VStr "srv_"]> (default ∅ options) in
  let services := match r with Rows l => l | Row entry => [entry] end in
  let w0 := World (now w) (log w ++ [EvQuery filters options']) (heap w) in
  datastore_query E (log w) (now w) filters options' = inr r →
  ∃ w',
    query E filters options w =
      lift_sum (filter_list E (VRef <$> services) filters options') w' ∧
    now w ≤ now w' ≤ now w + 150 ∧
    (∀ (i : nat) entry,
       services !! i = Some entry →
       now w + 150 < finishes_at E w0 entry →
       row_unknown (heap w') entry) ∧
    (∀ entry, entry ∈ services → is_ServiceStatus (heap w') (VRef entry) = true) ∧
    (NoDup services →
     ∀ entry what (b found : bool) pids w1,
       entry ∈ services →
       heap w !! entry ≫= (.!! "service") = Some (VStr what) →
       heap w !! entry ≫= (.!! "enable") = Some (VBool b) →
       _started E what None w0 = (Ok (found, pids), w1) →
       now w1 ≤ now w + 150 →
       row_resolved (heap w') entry (resolve_state found b) pids).
Proof.
  intros options' services w0 Hds.
  assert (Hj0 : joined w0 150 w0) by (split; [done|lia]).
  pose proof (joinall_spec E w0 150 services w0 Hj0) as (Hj & Hlen & Hvals).
  destruct (joinall_statuses E w0 150 services w0) as [_ Hstat].
  destruct (joinall_resolved E w0 150 services w0 ltac:(done)) as (_ & _ & Hres).
  destruct (joinall E w0 150 services w0) as [values w1] eqn:Hjoin. simpl in *.
  assert (Hshape : ∀ (i : nat) entry, services !! i = Some entry →
            values !! i = Some None ∨ values !! i = Some (Some (VRef entry)))
    by (intros i e Hi; apply (Hvals i e Hi)).
  destruct (map_result_spec services values w1 Hlen Hshape) as (h' & Hmap & _ & Hunk).
  destruct (map_result_statuses services values w1 Hlen Hshape) as (h2 & Hmap2 & Hkeep & Hnone).
  rewrite Hmap in Hmap2. injection Hmap2 as <-.
  exists (World (now w1) (log w1) h'). split_and!.
  - unfold query. fold options'.
    unfold mbind at 1. unfold M_bind at 1. rewrite Hds. fold w0. fold services.
    unfold mbind at 1. unfold M_bind at 1. rewrite Hjoin.
    erewrite bind_Ok; [|exact Hmap]. reflexivity.
  - destruct Hj as [_ Hj]. simpl in *. lia.
  - destruct Hj as [_ Hj]. simpl in *. lia.
  - intros i entry Hi Hlate. simpl. eapply Hunk; [exact Hi|].
    apply (Hvals i entry Hi). exact Hlate.
  - intros entry [i Hi]%list_elem_of_lookup. simpl.
    destruct (Hshape i entry Hi) as [Hv|Hv].
    + by eapply Hnone.
    + by eapply Hkeep, Hstat.
  - intros Hnodup entry what b found pids w2 [i Hi]%list_elem_of_lookup Hs He Hst Htime.
    destruct (Hres Hnodup i entry what b found pids w2 Hi Hs He Hst Htime) as [Hvi Hrow].
    destruct (map_result_keeps services entry values w1 Hlen Hshape) as (h3 & Hmap3 & Hsame).
    { intros j Hj'. assert (j = i) as -> by (by eapply NoDup_lookup). done. }
    rewrite Hmap in Hmap3. injection Hmap3 as <-.
    unfold row_resolved in *. simpl. by rewrite Hsame.
Qed.

Lemma query_one_status_per_service_witness :
  row_unknown (heap (query Demo.env VNone None Demo.w0).2) 0%nat ∧
  is_ServiceStatus (heap (query Demo.env VNone None Demo.w0).2) (VRef 1%nat) = true.
Proof.
  assert (Hds : datastore_query Demo.env (log Demo.w0) (now Demo.w0) VNone
                  (<["suffix" := VStr "srv_"]> (default ∅ None)) = inr (Rows [0; 1]%nat))
    by reflexivity.
  destruct (query_one_status_per_service Demo.env VNone None Demo.w0 (Rows [0; 1]%nat) Hds)
    as (w' & Hq & _ & Hunk & Hstatus & _).
  rewrite Hq. split.
  - apply (Hunk 0%nat 0%nat eq_refl). vm_compute. reflexivity.
  - apply Hstatus. apply elem_of_cons. right. by apply list_elem_of_singleton.
Defined.

(** C9, as the code has it. A resolution makes no new object: when
    [_get_status] returns, it returns the row it was given, and so does
    [result]; what they write is written into that row, under [state] and
    [pids] only. Every other row, and every other key of the row, is left as
    it was, also by a resolution that ends after [query] has returned. *)
Theorem resolution_writes_its_own_row (E : environment) (service : loc) (w : world) :
  (∀ v, (_get_status E service w).1 = Ok v → v = VRef service) ∧
  (∀ value, value = None ∨ value = Some (VRef service) →
     (result service value w).1 = Ok (VRef service)) ∧
  ∀ (l : loc) (key : string),
    l ≠ service ∨ (key ≠ "state" ∧ key ≠ "pids") →
    heap (_get_status E service w).2 !! l ≫= (.!! key) = heap w !! l ≫= (.!! key) ∧
    (∀ value, value = None ∨ value = Some (VRef service) →
       heap (result service value w).2 !! l ≫= (.!! key) = heap w !! l ≫= (.!! key)) ∧
    (∀ w0, heap (late_completion E w0 service w) !! l ≫= (.!! key) =
           heap w !! l ≫= (.!! key)).
Proof.
  assert (Hshape : ∀ t lg h, ∃ r t' lg' h',
            _get_status E service (World t lg h) = (r, World t' lg' h') ∧
            ((r = Ok (VRef service) ∧ ∃ state pids, h' = with_status service state pids h) ∨
             (∃ ex, r = Raise ex ∧ h' = h))).
  { intros t lg h.
    destruct (_get_status_shape E service t lg (h !! service ≫= (.!! "service")))
      as (t' & lg' & H).
    destruct (H h eq_refl) as (r & h' & Hrun & Hres). eauto 10. }
  assert (Hframe : ∀ t lg h (l : loc) (key : string),
            l ≠ service ∨ (key ≠ "state" ∧ key ≠ "pids") →
            heap (_get_status E service (World t lg h)).2 !! l ≫= (.!! key) =
            h !! l ≫= (.!! key)).
  { intros t lg h l key Hl.
    destruct (Hshape t lg h) as (r & t' & lg' & h' & -> & Hres). simpl.
    destruct Hres as [[_ (state & pids & ->)]|(ex & _ & ->)]; [|done].
    by apply with_status_frame. }
  split_and!.
  - intros v Hv. destruct w as [t lg h].
    destruct (Hshape t lg h) as (r & t' & lg' & h' & Hrun & Hres).
    rewrite Hrun in Hv. simpl in Hv.
    destruct Hres as [[-> _]|(ex & -> & _)]; congruence.
  - intros value Hvalue. by rewrite result_spec.
  - intros l key Hl. split_and!.
    + destruct w as [t lg h]. by apply Hframe.
    + intros value Hvalue. rewrite result_spec by done. simpl.
      destruct value; [done|]. by apply with_status_frame.
    + intros w0. unfold late_completion, greenlet_run.
      pose proof (Hframe (now w0) (log w0) (heap w) l key Hl) as H.
      destruct (_get_status E service _) as [r w1]. exact H.
Qed.

Lemma resolution_writes_its_own_row_witness :
  heap (_get_status Demo.env 1%nat Demo.w0).2 !! 0%nat ≫= (.!! "service") =
  heap Demo.w0 !! 0%nat ≫= (.!! "service").
Proof.
  destruct (resolution_writes_its_own_row Demo.env 1%nat Demo.w0) as (_ & _ & H).
  apply (H 0%nat "service"). left. discriminate.
Defined.

(** C9, as stated, fails. [query] returns the rows it was given, not new
    objects; the row of sshd, whose pgrep is still running at the deadline,
    is returned marked UNKNOWN, and the greenlet left running writes RUNNING
    and its pid into that same row when it ends. *)
Lemma status_overwritten_after_return :
  let w1 := (query Demo.env VNone None Demo.w0).2 in
  (query Demo.env VNone None Demo.w0).1 = Ok (VList [VRef 0%nat; VRef 1%nat]) ∧
  heap w1 !! 0%nat ≫= (.!! "state") = Some (VStr "UNKNOWN") ∧
  heap w1 !! 0%nat ≫= (.!! "pids") = Some (VList []) ∧
  heap (late_completion Demo.env query_spawned 0%nat w1) !! 0%nat ≫= (.!! "state") =
    Some (VStr "RUNNING") ∧
  heap (late_completion Demo.env query_spawned 0%nat w1) !! 0%nat ≫= (.!! "pids") =
    Some (VList [VInt 123]).
Proof. vm_compute. split_and!; reflexivity. Qed.

(** ** More on the readiness watcher *)

Section WatcherLatency.

Variable E : environment.
Variable pidfile : string.
Variable T : N.

(** The stop loop, when the marker file is gone for good from [T] on and
    the last poll is not before [T]. *)
Lemma run_loop_stop_gone (n : nat) : ∀ tries s,
  (∀ t, T ≤ t → st_size E t pidfile = None) →
  (6 - tries = S n)%nat →
  T ≤ clock s + 10 * N.of_nat (6 - tries) →
  (run_loop E pidfile "stop" tries s).1.2 = true ∧
  clock s + 10 ≤ clock (run_loop E pidfile "stop" tries s).2 ≤ N.max (clock s + 10) (T + 9).
Proof.
  induction n as [|n IH]; intros tries s Hgone Hn HT;
    rewrite run_loop_step, decide_True by lia; rewrite poll_stop; simpl.
  - rewrite (proj2 (exists_at_false E _ _)) by (apply Hgone; lia). simpl. lia.
  - destruct (exists_at E (clock s + 10) pidfile) eqn:Hex; simpl; [|lia].
    assert (clock s + 10 < T).
    { destruct (N.lt_ge_cases (clock s + 10) T) as [?|Hge]; [done|].
      apply exists_at_true in Hex as [m Hm]. rewrite (Hgone _ Hge) in Hm. done. }
    specialize (IH (S tries) (Watch (clock s + 10)
      (trace s ++ [WSleep 10; WExists pidfile true])) Hgone ltac:(lia)).
    simpl in IH. destruct IH as [IH1 IH2]; [lia|]. split; [done|]. lia.
Qed.

(** The start and restart loop, when the marker file is there with content
    for good from [T] on and the last poll is not before [T]. *)
Lemma run_loop_start_ready (n : nat) verb : ∀ tries s,
  verb = "start" ∨ verb = "restart" →
  (∀ t, T ≤ t → ∃ size, st_size E t pidfile = Some size ∧ 0 < size) →
  (6 - tries = S n)%nat →
  T ≤ clock s + 10 * N.of_nat (6 - tries) →
  (run_loop E pidfile verb tries s).1.2 = true ∧
  clock s + 10 ≤ clock (run_loop E pidfile verb tries s).2 ≤ N.max (clock s + 11) (T + 11).
Proof.
  induction n as [|n IH]; intros tries s Hverb Hready Hn HT;
    rewrite run_loop_step, decide_True by lia; rewrite (poll_start E pidfile verb s Hverb);
    simpl.
  - destruct (Hready (clock s + 10) ltac:(lia)) as (size & Hs & Hpos).
    rewrite (exists_at_Some E _ _ _ Hs).
    destruct (Hready (clock s + 10 + 1) ltac:(lia)) as (size' & Hs' & Hpos').
    rewrite Hs'. rewrite (proj2 (N.ltb_lt _ _) Hpos'). simpl. lia.
  - set (t2 := if exists_at E (clock s + 10) pidfile then clock s + 10 + 1 else clock s + 10).
    assert (Ht2 : clock s + 10 ≤ t2 ≤ clock s + 11) by (subst t2; destruct (exists_at _ _ _); lia).
    destruct (match st_size E t2 pidfile with Some n0 => 0 <? n0 | None => false end) eqn:Hok;
      simpl; [lia|].
    assert (clock s + 10 < T).
    { destruct (N.lt_ge_cases (clock s + 10) T) as [?|Hge]; [done|]. exfalso.
      destruct (Hready (clock s + 10) Hge) as (size & Hs & Hpos).
      subst t2. rewrite (exists_at_Some E _ _ _ Hs) in Hok.
      destruct (Hready (clock s + 10 + 1) ltac:(lia)) as (size' & Hs' & Hpos').
      rewrite Hs', (proj2 (N.ltb_lt _ _) Hpos') in Hok. done. }
    match goal with |- context [run_loop E pidfile verb (S tries) ?s1] =>
      specialize (IH (S tries) s1 Hverb Hready ltac:(lia)) end.
    simpl in IH. destruct IH as [IH1 IH2]; [lia|]. split; [done|]. lia.
Qed.

End WatcherLatency.

(** X1. The watcher answers within about one polling interval. If from some
    time [T] on, not later than 5 after the watcher was started, the marker
    file is there with content for good, a watcher for start or restart ends
    by break at most 1.1 after [T] (or after its start); if from [T] on the
    marker file is gone for good, a watcher for stop ends by break less than
    1 after [T] (or 1 after its start). *)
Theorem watcher_ends_soon_after_ready
    (E : environment) (pidfile verb : string) (t0 T : N) :
  pidfile ≠ "" →
  T ≤ t0 + 50 →
  let self := Build_StartNotify (Some pidfile) verb t0 in
  (verb = "start" ∨ verb = "restart" →
   (∀ t, T ≤ t → ∃ size, st_size E t pidfile = Some size ∧ 0 < size) →
   (run E self).1.2 = true ∧ finished_at E self ≤ N.max (t0 + 11) (T + 11)) ∧
  (verb = "stop" →
   (∀ t, T ≤ t → st_size E t pidfile = None) →
   (run E self).1.2 = true ∧ finished_at E self ≤ N.max (t0 + 10) (T + 9)).
Proof.
  intros Hp HT self. unfold finished_at, run. simpl.
  apply String.eqb_neq in Hp. rewrite Hp. split.
  - intros Hverb Hready.
    destruct (run_loop_start_ready E pidfile T 4 verb 1 (Watch t0 []) Hverb Hready eq_refl)
      as [H1 H2]; [simpl; lia|]. simpl in *. split; [done|lia].
  - intros -> Hgone.
    destruct (run_loop_stop_gone E pidfile T 4 1 (Watch t0 []) Hgone eq_refl)
      as [H1 H2]; [simpl; lia|]. simpl in *. split; [done|lia].
Qed.

Lemma watcher_ends_soon_after_ready_witness :
  (run Demo.env (Build_StartNotify (Some "/var/run/sshd.pid") "start" 0)).1.2 = true ∧
  finished_at Demo.env (Build_StartNotify (Some "/var/run/sshd.pid") "start" 0)
    ≤ N.max (0 + 11) (23 + 11).
Proof.
  refine (proj1 (watcher_ends_soon_after_ready Demo.env "/var/run/sshd.pid" "start" 0 23
                   _ _) (or_introl eq_refl) _).
  - discriminate.
  - vm_compute. discriminate.
  - intros t Ht. exists 4. split; [|reflexivity].
    unfold Demo.env, st_size. rewrite (proj2 (N.leb_le 23 t) Ht). reflexivity.
Defined.

(** X2. A watcher that has a marker file to watch never ends at once: it
    sleeps 1 before it first looks, so it takes at least 1, and at most
    5.5, whatever the verb, the file and the filesystem. Joining it
    right after an action therefore costs at least 1, also when the daemon
    was already in the state asked for. *)
Theorem watcher_takes_at_least_one (E : environment) (pidfile verb : string) (t0 : N) :
  pidfile ≠ "" →
  let self := Build_StartNotify (Some pidfile) verb t0 in
  (1 ≤ polls (run E self).2)%nat ∧
  t0 + 10 ≤ finished_at E self ≤ t0 + 55.
Proof.
  intros Hp self. unfold finished_at, run. simpl.
  apply String.eqb_neq in Hp. rewrite Hp.
  pose proof (run_loop_spec E pidfile verb 5 1 (Watch t0 []) eq_refl ltac:(lia)) as Hl.
  destruct (run_loop E pidfile verb 1 (Watch t0 [])) as [[tries early] s]. simpl.
  change (polls (Watch t0 [])) with 0%nat in Hl. simpl in Hl.
  destruct Hl as (Ha & Hb & Hc & Hd & He).
  destruct early; [pose proof (Hd eq_refl) | pose proof (Hc eq_refl)]; lia.
Qed.

Lemma watcher_takes_at_least_one_witness :
  (1 ≤ polls (run Demo.env (Build_StartNotify (Some "/var/run/sshd.pid") "stop" 30)).2)%nat ∧
  30 + 10 ≤ finished_at Demo.env (Build_StartNotify (Some "/var/run/sshd.pid") "stop" 30)
    ≤ 30 + 55.
Proof.
  refine (watcher_takes_at_least_one Demo.env "/var/run/sshd.pid" "stop" 30 _).
  discriminate.
Defined.

(** ** More on the dispatcher *)

(** X3. The generic path of [_simplecmd] (a verb among start, stop, restart
    and reload, no method of the class for it): it runs service(8) on the
    process name of the table, or on the service name when the table has
    none, after a forcestop when the verb is restart, and it does not look at
    exit statuses: as long as the commands can be run at all, it returns
    normally after all of them. *)
Theorem generic_simplecmd_runs_service
    (E : environment) (attrs : string → option (M pyval)) (action what : string) (w : world) :
  attrs ("_" +:+ action +:+ "_" +:+ what) = None →
  generic_verb action = true →
  (∀ lg t cmd, ∃ p, popen E lg t cmd = inr p) →
  ∃ t',
    _simplecmd E attrs action what w =
      (Ok tt,
       World t'
         (log w ++ EvDebug ("Calling: " +:+ action +:+ "(" +:+ what +:+ ") ")
            :: (EvPopen <$> generic_commands action what))
         (heap w)) ∧
    now w ≤ t'.
Proof.
  intros Hattr Hverb Hpopen.
  assert (Hsys : ∀ cmd w1, ∃ rc d,
            _system E cmd w1 = (Ok rc, World (now w1 + d) (log w1 ++ [EvPopen cmd]) (heap w1))).
  { intros cmd w1. rewrite _system_spec.
    destruct (Hpopen (log w1) (now w1) cmd) as [p ->]. eauto. }
  unfold _simplecmd. rewrite Hattr, Hverb. fold (rc_name what).
  unfold debug, emit. unfold mbind at 1 2. unfold M_bind at 1 2. simpl.
  set (w0 := World _ _ _). unfold generic_commands.
  destruct (String.eqb action "restart").
  - destruct (Hsys ("/usr/sbin/service " +:+ rc_name what +:+ " forcestop ") w0)
      as (rc1 & d1 & H1).
    set (w1 := World _ _ _) in H1.
    destruct (Hsys ("/usr/sbin/service " +:+ rc_name what +:+ " " +:+ action) w1)
      as (rc2 & d2 & H2).
    exists (now w + d1 + d2). split; [|lia].
    unfold mbind, M_bind, mret, M_ret. rewrite H1, H2. subst w1 w0. simpl.
    by rewrite <- !app_assoc.
  - destruct (Hsys ("/usr/sbin/service " +:+ rc_name what +:+ " " +:+ action) w0)
      as (rc2 & d2 & H2).
    exists (now w + d2). split; [|lia].
    unfold mbind, M_bind, mret, M_ret. rewrite H2. subst w0. simpl.
    by rewrite <- !app_assoc.
Qed.

Lemma generic_simplecmd_runs_service_witness :
  ∃ t',
    _simplecmd Demo.failing (class_attrs Demo.failing) "restart" "upsmon" Demo.w0 =
      (Ok tt,
       World t'
         (log Demo.w0 ++ EvDebug ("Calling: " +:+ "restart" +:+ "(" +:+ "upsmon" +:+ ") ")
            :: (EvPopen <$> generic_commands "restart" "upsmon"))
         (heap Demo.w0)) ∧
    now Demo.w0 ≤ t'.
Proof.
  refine (generic_simplecmd_runs_service Demo.failing (class_attrs Demo.failing)
            "restart" "upsmon" Demo.w0 _ _ _).
  - vm_compute. reflexivity.
  - reflexivity.
  - intros lg t cmd. eexists. reflexivity.
Defined.

(** X4. When the pre-action hook raises, the action is given up at once:
    each of the four verbs raises what the hook raised, and nothing has been
    done but the call of the hook: no watcher is started and no command is
    run. *)
Theorem hook_failure_aborts_the_action
    (E : environment) (attrs : string → option (M pyval)) (service : string)
    (w : world) (e : exn) :
  let failed name := World (now w) (log w ++ [EvHook name service]) (heap w) in
  (call_hook E (log w) (now w) "service.pre_start" service = Some e →
   start E attrs service w = (Raise e, failed "service.pre_start")) ∧
  (call_hook E (log w) (now w) "service.pre_stop" service = Some e →
   stop E attrs service w = (Raise e, failed "service.pre_stop")) ∧
  (call_hook E (log w) (now w) "service.pre_restart" service = Some e →
   restart E attrs service w = (Raise e, failed "service.pre_restart")) ∧
  (call_hook E (log w) (now w) "service.pre_reload" service = Some e →
   reload E attrs service w = (Raise e, failed "service.pre_reload")).
Proof.
  intros failed.
  assert (Hhook : ∀ name, call_hook E (log w) (now w) name service = Some e →
            hook E name service w = (Raise e, failed name)).
  { intros name H. unfold hook. by rewrite H. }
  split_and!; intros H.
  - unfold start. by rewrite (bind_Raise _ _ _ _ _ (Hhook _ H)).
  - unfold stop. by rewrite (bind_Raise _ _ _ _ _ (Hhook _ H)).
  - unfold restart. by rewrite (bind_Raise _ _ _ _ _ (Hhook _ H)).
  - unfold reload. by rewrite (bind_Raise _ _ _ _ _ (Hhook _ H)).
Qed.

Lemma hook_failure_aborts_the_action_witness :
  stop Demo.hookless (class_attrs Demo.hookless) "ssh" Demo.w0 =
    (Raise (CallError "no such hook"),
     World (now Demo.w0) (log Demo.w0 ++ [EvHook "service.pre_stop" "ssh"]) (heap Demo.w0)).
Proof.
  refine (proj1 (proj2 (hook_failure_aborts_the_action Demo.hookless
            (class_attrs Demo.hookless) "ssh" Demo.w0 (CallError "no such hook"))) _).
  reflexivity.
Defined.

(** X5. A reload that goes through runs no restart and waits for no
    watcher: when [_simplecmd("reload", service)] returns, [reload] is the
    started check alone, made in the world that the commands left. *)
Theorem reload_without_failure
    (E : environment) (attrs : string → option (M pyval)) (service : string)
    (w w0 w1 : world) :
  hook E "service.pre_reload" service w = (Ok tt, w0) →
  _simplecmd E attrs "reload" service w0 = (Ok tt, w1) →
  reload E attrs service w = started E attrs service None w1 ∧
  (attrs ("_started_" +:+ service) = None →
   ∀ r w', _started E service None w1 = (r, w') →
     reload E attrs service w =
       (match r with Ok (running, _) => Ok (VBool running) | Raise e => Raise e end, w') ∧
     ∀ ev, ev ∈ log w' → ev ∈ log w1 ∨ ∃ cmd, ev = EvPopen cmd).
Proof.
  intros Hhook Hcmd.
  assert (Hreload : reload E attrs service w = started E attrs service None w1).
  { unfold reload, try_except, mbind, M_bind. by rewrite Hhook, Hcmd. }
  split; [done|]. intros Hattr r w' Hr. rewrite Hreload. unfold started. rewrite Hattr.
  split.
  - unfold mbind, M_bind. rewrite Hr. by destruct r as [[running pids]|e].
  - intros ev Hev. destruct (SERVICE_DEFS !! service) as [[procname pidfile]|] eqn:Hdefs.
    + rewrite (_started_known E service procname pidfile None w1 Hdefs) in Hr. simpl in Hr.
      destruct (popen E _ _ _); injection Hr as <- <-; simpl in Hev;
        apply elem_of_app in Hev as [?|Hev%list_elem_of_singleton]; eauto.
    + rewrite (_started_unknown E service None w1 Hdefs) in Hr. injection Hr as <- <-. auto.
Qed.

Lemma reload_without_failure_witness :
  reload Demo.env (class_attrs Demo.env) "ssh" Demo.w0 =
    started Demo.env (class_attrs Demo.env) "ssh" None ssh_reloaded.
Proof.
  refine (proj1 (reload_without_failure Demo.env (class_attrs Demo.env) "ssh" Demo.w0
            (World 0 [EvHook "service.pre_reload" "ssh"] Demo.heap0) ssh_reloaded _ _));
    vm_compute; reflexivity.
Defined.

(** ** More on the started check *)

(** Whatever it watches, a watcher is over 5.5 after its start. *)
Lemma finished_at_bound (E : environment) (sn : StartNotify) :
  started_at sn ≤ finished_at E sn ≤ started_at sn + 55.
Proof.
  unfold finished_at, run. destruct (_pidfile sn) as [pidfile|]; simpl; [|lia].
  destruct (String.eqb pidfile ""); simpl; [lia|].
  pose proof (run_loop_spec E pidfile (_verb sn) 5 1 (Watch (started_at sn) [])
                eq_refl ltac:(lia)) as Hl.
  destruct (run_loop E pidfile (_verb sn) 1 (Watch (started_at sn) [])) as [[tries early] s].
  simpl. change (polls (Watch (started_at sn) [])) with 0%nat in Hl. simpl in Hl.
  destruct Hl as (Ha & Hb & Hc & Hd & He).
  destruct early; [pose proof (Hd eq_refl) | pose proof (Hc eq_refl)]; lia.
Qed.

(** X6. The started check of a service of the table, given the watcher of
    the action: it waits until the watcher has ended, which is never later
    than 5.5 after the watcher was started, then runs one pgrep and nothing
    else; so it is back at the later of now and the watcher's end, plus the
    time pgrep takes. The time the action's own commands took, which lies
    between the watcher's start and now, is not waited for again. *)
Theorem started_waits_for_the_watcher_only
    (E : environment) (what : string) (procname pidfile : option string)
    (sn : StartNotify) (w : world) :
  SERVICE_DEFS !! what = Some (procname, pidfile) →
  let joined_at := N.max (now w) (finished_at E sn) in
  joined_at ≤ N.max (now w) (started_at sn + 55) ∧
  log (_started E what (Some sn) w).2 = (log w ++ [EvPopen (pgrep_command procname pidfile)])%list ∧
  heap (_started E what (Some sn) w).2 = heap w ∧
  now (_started E what (Some sn) w).2 =
    joined_at + match popen E (log w) joined_at (pgrep_command procname pidfile) with
                | inl _ => 0
                | inr p => elapsed p
                end.
Proof.
  intros Hdefs joined_at. pose proof (finished_at_bound E sn) as Hb.
  rewrite (_started_known E what procname pidfile (Some sn) w Hdefs). simpl.
  fold joined_at. split; [lia|].
  destruct (popen E (log w) joined_at (pgrep_command procname pidfile)); simpl;
    split_and!; try done; lia.
Qed.

Lemma started_waits_for_the_watcher_only_witness :
  now (_started Demo.env "ssh" (Some (Build_StartNotify (Some "/var/run/sshd.pid") "start" 0))
         (World 12 [] Demo.heap0)).2 =
  N.max 12 (finished_at Demo.env (Build_StartNotify (Some "/var/run/sshd.pid") "start" 0))
  + match popen Demo.env []
            (N.max 12 (finished_at Demo.env
                         (Build_StartNotify (Some "/var/run/sshd.pid") "start" 0)))
            (pgrep_command (Some "sshd") (Some "/var/run/sshd.pid")) with
    | inl _ => 0
    | inr p => elapsed p
    end.
Proof.
  assert (H : SERVICE_DEFS !! "ssh" = Some (Some "sshd", Some "/var/run/sshd.pid"))
    by (vm_compute; reflexivity).
  exact (proj2 (proj2 (proj2 (started_waits_for_the_watcher_only Demo.env "ssh" _ _
           (Build_StartNotify (Some "/var/run/sshd.pid") "start" 0)
           (World 12 [] Demo.heap0) H)))).
Defined.

(** X7. Every service of the table can be looked for: it has a marker file
    or a process name, so that the pgrep command of [_started] names a pid
    file after -F, or else a process name, and a process name is never
    missing where there is no marker file. *)
Theorem table_gives_a_pgrep_target (what : string) (procname pidfile : option string) :
  SERVICE_DEFS !! what = Some (procname, pidfile) →
  (nonempty pidfile = true ∧
   ∃ path, pidfile = Some path ∧
     pgrep_command procname pidfile =
       "/bin/pgrep -F " +:+ path +:+ (if nonempty procname then " " +:+ fmt procname else "")) ∨
  (pidfile = None ∧ ∃ name, procname = Some name ∧ name ≠ "" ∧
     pgrep_command procname pidfile = "/bin/pgrep " +:+ name).
Proof.
  intros Hdefs.
  assert (Hall : forallb (λ kv : string * (option string * option string),
                    nonempty kv.2.2 || (nonempty kv.2.1 && bool_decide (kv.2.2 = None)))
                   (map_to_list SERVICE_DEFS) = true) by (vm_compute; reflexivity).
  rewrite forallb_forall in Hall.
  apply elem_of_map_to_list, list_elem_of_In in Hdefs. specialize (Hall _ Hdefs). simpl in Hall.
  apply orb_true_iff in Hall as [Hpf | [Hpn Hnone]%andb_true_iff].
  - left. split; [done|]. destruct pidfile as [path|]; [|done].
    exists path. split; [done|]. unfold pgrep_command. by rewrite Hpf.
  - right. apply bool_decide_eq_true in Hnone as ->. split; [done|].
    destruct procname as [name|]; [|done]. exists name. split_and!; [done| |done].
    simpl in Hpn. apply negb_true_iff, String.eqb_neq in Hpn. done.
Qed.

Lemma table_gives_a_pgrep_target_witness :
  (nonempty (Some "/var/run/webshell.pid") = true ∧
   ∃ path, Some "/var/run/webshell.pid" = Some path ∧
     pgrep_command None (Some "/var/run/webshell.pid") =
       "/bin/pgrep -F " +:+ path +:+ (if nonempty None then " " +:+ fmt None else "")) ∨
  (Some "/var/run/webshell.pid" = None ∧ ∃ name, None = Some name ∧ name ≠ "" ∧
     pgrep_command None (Some "/var/run/webshell.pid") = "/bin/pgrep " +:+ name).
Proof.
  refine (table_gives_a_pgrep_target "webshell" None (Some "/var/run/webshell.pid") _).
  vm_compute. reflexivity.
Defined.

(** ** Reading pgrep's output *)

Module PyStrFacts.

Import PyStr.

Section Facts.

Variable py : interpreter.



















End Facts.

End PyStrFacts.



(** Two outputs that pgrep does not print, read as Python reads them: a
    superscript two is a digit for [str.isdigit] and no number for [int],
    and a no-break space before the pid is white space for [str.strip]. *)
Lemma parse_pids_superscript_two :
  parse_pids python3 [178; 10] = inl PyStr.invalid_literal.
Proof. reflexivity. Qed.

Lemma parse_pids_no_break_space :
  parse_pids python3 (160 :: text_of "812" ++ [10])%list = inr [812%Z].
Proof. reflexivity. Qed.

(** ** The rows are written by the status resolution alone *)

Create HintDb leaves.

Section Leaves.

Variable E : environment.

Lemma leaves_ret {A} (a : A) : leaves_rows (mret a : M A).
Proof. intros w. simpl. split_and!; [done | lia | done]. Qed.

Lemma leaves_raise {A} (e : exn) : leaves_rows (raise e : M A).
Proof. intros w. simpl. split_and!; [done | lia | done]. Qed.

Lemma leaves_bind {A B} (m : M A) (f : A → M B) :
  leaves_rows m → (∀ a, leaves_rows (f a)) → leaves_rows (m ≫= f).
Proof.
  intros Hm Hf w. unfold mbind, M_bind. specialize (Hm w).
  destruct (m w) as [[a|e] w1]; simpl in *; [|done].
  specialize (Hf a w1). destruct (f a w1) as [r w2]. simpl in *.
  destruct Hm as (? & ? & ?), Hf as (? & ? & ?).
  split_and!; [congruence | lia | by etrans].
Qed.

Lemma leaves_try_except {A} (body : M A) (handler : exn → M A) :
  leaves_rows body → (∀ e, leaves_rows (handler e)) → leaves_rows (try_except body handler).
Proof.
  intros Hm Hf w. unfold try_except. specialize (Hm w).
  destruct (body w) as [[a|e] w1]; simpl in *; [done|].
  specialize (Hf e w1). destruct (handler e w1) as [r w2]. simpl in *.
  destruct Hm as (? & ? & ?), Hf as (? & ? & ?).
  split_and!; [congruence | lia | by etrans].
Qed.

Lemma leaves_emit ev : leaves_rows (emit ev).
Proof. intros w. simpl. split_and!; [done | lia | by apply prefix_app_r]. Qed.

Lemma leaves_wait d : leaves_rows (wait d).
Proof. intros w. simpl. split_and!; [done | lia | done]. Qed.

Lemma leaves_wait_until t : leaves_rows (wait_until t).
Proof. intros w. simpl. split_and!; [done | lia | done]. Qed.

Lemma leaves_lift_sum {A} (r : exn + A) : leaves_rows (lift_sum r).
Proof. destruct r; [apply leaves_raise | apply leaves_ret]. Qed.

Lemma leaves_getitem l key : leaves_rows (getitem l key).
Proof.
  intros w. unfold getitem. destruct (heap w !! l ≫= _); simpl; split_and!; done || lia.
Qed.

Lemma leaves_get_heap : leaves_rows get_heap.
Proof. intros w. simpl. split_and!; [done | lia | done]. Qed.

Lemma leaves_py_int py s : leaves_rows (py_int py s).
Proof. apply leaves_lift_sum. Qed.

Lemma leaves_py_getitem v key : leaves_rows (py_getitem v key).
Proof.
  destruct v; simpl; try apply leaves_raise; [|apply leaves_getitem].
  destruct (_ !! key); [apply leaves_ret | apply leaves_raise].
Qed.

Lemma leaves_py_iter v : leaves_rows (py_iter v).
Proof.
  destruct v; simpl; try apply leaves_raise; try apply leaves_ret.
  apply leaves_bind; [apply leaves_get_heap | intros h; apply leaves_ret].
Qed.

Lemma leaves_map_M {A B} (f : A → M B) (l : list A) :
  (∀ a, leaves_rows (f a)) → leaves_rows (map_M f l).
Proof.
  intros Hf. induction l as [|a l IH]; simpl; [apply leaves_ret|].
  apply leaves_bind; [apply Hf | intros y].
  apply leaves_bind; [apply IH | intros ys; apply leaves_ret].
Qed.

Lemma leaves_Popen cmd : leaves_rows (Popen E cmd).
Proof.
  intros w. unfold Popen. destruct (popen E (log w) (now w) cmd); simpl;
    (split_and!; [done | lia | by apply prefix_app_r]).
Qed.

Lemma leaves_hook name what : leaves_rows (hook E name what).
Proof.
  intros w. unfold hook. destruct (call_hook E (log w) (now w) name what); simpl;
    (split_and!; [done | lia | by apply prefix_app_r]).
Qed.

Lemma leaves_call name args : leaves_rows (call E name args).
Proof.
  intros w. unfold call. destruct (middleware_call E (log w) (now w) name args); simpl;
    (split_and!; [done | lia | by apply prefix_app_r]).
Qed.

Lemma leaves_kill pid sig : leaves_rows (kill E pid sig).
Proof.
  intros w. unfold kill. destruct (os_kill E (log w) (now w) pid sig); simpl;
    (split_and!; [done | lia | by apply prefix_app_r]).
Qed.

Lemma leaves_read path : leaves_rows (read E path).
Proof. intros w. unfold read. apply leaves_lift_sum. Qed.

Lemma leaves__system cmd : leaves_rows (_system E cmd).
Proof.
  apply leaves_bind; [apply leaves_Popen | intros p; apply leaves_ret].
Qed.

Lemma leaves__started_notify verb what : leaves_rows (_started_notify verb what).
Proof.
  unfold _started_notify. destruct (SERVICE_DEFS !! what) as [[procname pidfile]|];
    [|apply leaves_ret].
  intros w. simpl. split_and!; [done | lia | by apply prefix_app_r].
Qed.

Lemma leaves__started what sn : leaves_rows (_started E what sn).
Proof.
  unfold _started. destruct (SERVICE_DEFS !! what) as [[procname pidfile]|];
    [|apply leaves_ret].
  apply leaves_bind; [destruct sn; [apply leaves_wait_until | apply leaves_ret]|intros _].
  apply leaves_bind; [apply leaves_Popen | intros p].
  destruct (_ =? _)%Z; [|apply leaves_ret].
  apply leaves_bind; [apply leaves_lift_sum | intros pids; apply leaves_ret].
Qed.

End Leaves.

#[local] Hint Resolve leaves_ret leaves_raise leaves_emit leaves_wait leaves_wait_until
  leaves_lift_sum leaves_getitem leaves_get_heap leaves_py_int leaves_py_getitem
  leaves_py_iter leaves_Popen leaves_hook leaves_call leaves_kill leaves_read
  leaves__system leaves__started_notify leaves__started : leaves.

Ltac head_of t :=
  lazymatch t with
  | ?f _ => head_of f
  | _ => t
  end.

(** One step through a computation: a lemma of the database, a bind, a
    handler, a loop, a case distinction, or the body of the method. *)
Ltac leaves_step :=
  first
    [ solve [auto 1 with leaves]
    | apply leaves_bind; [|intros ?]
    | apply leaves_try_except; [|intros ?]
    | apply leaves_map_M; intros ?
    | lazymatch goal with
      | |- leaves_rows (if ?b then _ else _) => destruct b
      | |- leaves_rows (match ?x with _ => _ end) => destruct x
      | |- leaves_rows ?m => let h := head_of m in progress unfold h
      end ].

Ltac leaves := repeat leaves_step.

Section LeavesDispatcher.

Variable E : environment.
Variable attrs : string → option (M pyval).
Hypothesis Hattrs : ∀ name f, attrs name = Some f → leaves_rows f.

Lemma leaves__simplecmd action what : leaves_rows (_simplecmd E attrs action what).
Proof.
  unfold _simplecmd, debug.
  destruct (attrs _) as [f|] eqn:Hf.
  - pose proof (Hattrs _ _ Hf). leaves.
  - leaves.
Qed.

Lemma leaves_started what sn : leaves_rows (started E attrs what sn).
Proof.
  unfold started. destruct (attrs _) as [f|] eqn:Hf.
  - exact (Hattrs _ _ Hf).
  - leaves.
Qed.

Lemma leaves_start service : leaves_rows (start E attrs service).
Proof.
  unfold start. pose proof leaves__simplecmd. pose proof leaves_started. leaves.
Qed.

Lemma leaves_stop service : leaves_rows (stop E attrs service).
Proof.
  unfold stop. pose proof leaves__simplecmd. pose proof leaves_started. leaves.
Qed.

Lemma leaves_restart service : leaves_rows (restart E attrs service).
Proof.
  unfold restart. pose proof leaves__simplecmd. pose proof leaves_started. leaves.
Qed.

Lemma leaves_reload service : leaves_rows (reload E attrs service).
Proof.
  unfold reload. pose proof leaves__simplecmd. pose proof leaves_started.
  pose proof leaves_restart. leaves.
Qed.

End LeavesDispatcher.

Lemma leaves_list_to_map (l : list (string * M pyval)) :
  Forall (λ kv, leaves_rows kv.2) l →
  ∀ name f, (list_to_map l : gmap string (M pyval)) !! name = Some f → leaves_rows f.
Proof.
  intros Hall name f Hf. apply elem_of_list_to_map_2 in Hf.
  rewrite Forall_forall in Hall. exact (Hall _ Hf).
Qed.

Lemma leaves_methods0 (E : environment) : Forall (λ kv, leaves_rows kv.2) (methods0 E).
Proof.
  unfold methods0. repeat (apply Forall_cons; split; [simpl; leaves|]). apply Forall_nil_2.
Qed.

Lemma leaves_attrs0 (E : environment) name f : attrs0 E name = Some f → leaves_rows f.
Proof. apply leaves_list_to_map, leaves_methods0. Qed.

Lemma leaves_methods1 (E : environment) : Forall (λ kv, leaves_rows kv.2) (methods1 E).
Proof.
  pose proof (leaves_reload E (attrs0 E) (leaves_attrs0 E)).
  pose proof (leaves_restart E (attrs0 E) (leaves_attrs0 E)).
  unfold methods1. repeat (apply Forall_cons; split; [simpl; leaves|]). apply Forall_nil_2.
Qed.

Lemma leaves_class_attrs (E : environment) name f :
  class_attrs E name = Some f → leaves_rows f.
Proof.
  apply leaves_list_to_map, Forall_app. split; [apply leaves_methods1 | apply leaves_methods0].
Qed.

(** X9. No action writes to a row. Whatever the service and whichever of its
    own methods the class has for it, start, stop, restart and reload leave
    every row as it was, with its state and pids as the last [query] wrote
    them; they do not turn the clock back and keep the whole history. *)
Theorem actions_leave_the_rows (E : environment) (service : string) (w : world) :
  Forall (λ action : string → M pyval,
            let w' := (action service w).2 in
            heap w' = heap w ∧ now w ≤ now w' ∧ log w `prefix_of` log w')
    [start E (class_attrs E); stop E (class_attrs E);
     restart E (class_attrs E); reload E (class_attrs E)].
Proof.
  repeat (apply Forall_cons; split); try apply Forall_nil_2.
  - apply (leaves_start E _ (leaves_class_attrs E)).
  - apply (leaves_stop E _ (leaves_class_attrs E)).
  - apply (leaves_restart E _ (leaves_class_attrs E)).
  - apply (leaves_reload E _ (leaves_class_attrs E)).
Qed.

(** ** Services with a started check of their own *)

(** The services for which the class has a [_started_] method, read off
    the table of methods. *)
Lemma own_started_checks (E : environment) (what : string) :
  is_Some (class_attrs E ("_started_" +:+ what)) →
  what ∈ ["nis"; "ldap"; "nt4"; "activedirectory"; "domaincontroller"; "ups"; "plugins";
          "notify"].
Proof.
  intros [f Hf]. unfold class_attrs in Hf.
  apply elem_of_list_to_map_2, (list_elem_of_fmap_2 fst) in Hf.
  vm_compute in Hf. apply list_elem_of_In in Hf. simpl in Hf.
  repeat (destruct Hf as [Hf|Hf]; [try discriminate Hf|]); try done.
  all: injection Hf as <-; set_solver.
Qed.

(** X10. The status of a service that has a started check of its own.
    [_get_status] does not go through [started]: it asks [_started], which
    knows the table only. So for every service with a [_started_] method
    other than ups (NIS, LDAP, NT4, Active Directory, domain controller,
    plugins) the status is resolved at once, without a command being run,
    and is never RUNNING: it is CRASHED when the service is enabled and
    STOPPED when not, with no pid, whatever the service's own check would
    say. *)
Theorem status_ignores_own_started_checks
    (E : environment) (service : loc) (what : string) (enable : pyval) (w : world) :
  heap w !! service ≫= (.!! "service") = Some (VStr what) →
  heap w !! service ≫= (.!! "enable") = Some enable →
  is_Some (class_attrs E ("_started_" +:+ what)) →
  what ≠ "ups" →
  _get_status E service w =
    (Ok (VRef service),
     World (now w) (log w)
       (with_status service (if truthy (heap w) enable then "CRASHED" else "STOPPED") []
          (heap w))).
Proof.
  intros Hname Henable Hown Hups.
  assert (Hdefs : SERVICE_DEFS !! what = None).
  { apply own_started_checks in Hown.
    repeat (apply elem_of_cons in Hown as [->|Hown]; [done || by vm_compute|]).
    by apply elem_of_nil in Hown. }
  rewrite (_get_status_spec E service what w Hname).
  rewrite (_started_unknown E what None w Hdefs). by rewrite Henable.
Qed.

Lemma status_ignores_own_started_checks_witness :
  _get_status Demo.env 0%nat nis_row = (Ok (VRef 0%nat), nis_row_resolved).
Proof.
  refine (status_ignores_own_started_checks Demo.env 0%nat "nis" (VBool true) nis_row _ _ _ _).
  - reflexivity.
  - reflexivity.
  - vm_compute. eexists. reflexivity.
  - discriminate.
Defined.

(** The class has its own started check for ups. *)
Lemma class_attrs_started_ups (E : environment) :
  class_attrs E "_started_ups" = Some (_started_ups E).
Proof. reflexivity. Qed.

Lemma _started_ups_pair (E : environment) (w : world) v w' :
  _started_ups E w = (Ok v, w') →
  ∃ (running : bool) (pids : list Z),
    v = VTuple [VBool running; VList (VInt <$> pids)] ∧ (running = false → pids = []).
Proof.
  unfold _started_ups. intros H.
  apply bind_inv_Ok in H as (ups & w1 & _ & H).
  apply bind_inv_Ok in H as (mode & w2 & _ & H).
  apply bind_inv_Ok in H as (sn & w3 & _ & H).
  apply bind_inv_Ok in H as ([running pids] & w4 & Hst & H).
  injection H as <- <-. exists running, pids. split; [done|].
  by destruct (_started_result E _ _ _ _ _ Hst) as [_ ?].
Qed.

(** X11. The started check of ups gives a pair, not a boolean: start, stop,
    restart and reload of ups, and [started] itself, return the tuple
    (running, pids) of [_started], which counts as true in a condition also
    when running is False. The watcher handed to [started] is not the one
    that is waited for. *)
Theorem ups_started_is_a_pair
    (E : environment) (sn : option StartNotify) (w w' : world) (v : pyval) :
  started E (class_attrs E) "ups" sn w = (Ok v, w') ∨
  start E (class_attrs E) "ups" w = (Ok v, w') ∨
  stop E (class_attrs E) "ups" w = (Ok v, w') ∨
  restart E (class_attrs E) "ups" w = (Ok v, w') ∨
  reload E (class_attrs E) "ups" w = (Ok v, w') →
  (∃ (running : bool) (pids : list Z),
     v = VTuple [VBool running; VList (VInt <$> pids)] ∧ (running = false → pids = [])) ∧
  truthy (heap w') v = true ∧
  started E (class_attrs E) "ups" sn = started E (class_attrs E) "ups" None.
Proof.
  intros H.
  assert (Hst : ∀ sn', started E (class_attrs E) "ups" sn' = _started_ups E).
  { intros sn'. unfold started.
    change ("_started_" +:+ "ups") with "_started_ups". by rewrite class_attrs_started_ups. }
  assert (Hpair : ∃ w1, _started_ups E w1 = (Ok v, w')).
  { destruct H as [H|[H|[H|[H|H]]]].
    - rewrite Hst in H. eauto.
    - unfold start in H.
      apply bind_inv_Ok in H as (? & ? & _ & H). apply bind_inv_Ok in H as (sn' & ? & _ & H).
      apply bind_inv_Ok in H as (? & w1 & _ & H). rewrite Hst in H. eauto.
    - unfold stop in H.
      apply bind_inv_Ok in H as (? & ? & _ & H). apply bind_inv_Ok in H as (sn' & ? & _ & H).
      apply bind_inv_Ok in H as (? & w1 & _ & H). rewrite Hst in H. eauto.
    - unfold restart in H.
      apply bind_inv_Ok in H as (? & ? & _ & H). apply bind_inv_Ok in H as (sn' & ? & _ & H).
      apply bind_inv_Ok in H as (? & w1 & _ & H). rewrite Hst in H. eauto.
    - unfold reload in H.
      apply bind_inv_Ok in H as (? & ? & _ & H).
      apply bind_inv_Ok in H as (? & w1 & _ & H). rewrite Hst in H. eauto. }
  destruct Hpair as (w1 & Hpair).
  destruct (_started_ups_pair E w1 v w' Hpair) as (running & pids & -> & Hpids).
  split_and!; [eauto | done | by rewrite !Hst].
Qed.

Lemma ups_started_is_a_pair_witness :
  truthy (heap ups_started_world) (VTuple [VBool false; VList (VInt <$> [])]) = true.
Proof.
  refine (proj1 (proj2 (ups_started_is_a_pair ups_appliance None Demo.w0 ups_started_world
                          (VTuple [VBool false; VList (VInt <$> [])])
                          (or_intror (or_introl _))))).
  vm_compute. reflexivity.
Defined.

(** ** Restarting the web shell *)

(** X12. [_restart_webshell] lets no failure of the hangup stop it. Whether
    the pid file can be read or not, holds a number or not, and whether the
    signal can be sent or not, the new web shell is launched, in a world
    that differs from the first by the signal sent and the pause after it at
    most; the method raises only when that last command cannot be
    launched. *)
Theorem restart_webshell_swallows_errors (E : environment) (w : world) :
  let w1 := webshell_signalled E w in
  class_attrs E "_restart_webshell" = Some (_restart_webshell E) ∧
  _restart_webshell E w = (_system E webshell_command ≫= λ _, mret VNone) w1 ∧
  match popen E (log w1) (now w1) webshell_command with
  | inr _ => (_restart_webshell E w).1 = Ok VNone
  | inl e => (_restart_webshell E w).1 = Raise e
  end ∧
  EvPopen webshell_command ∈ log (_restart_webshell E w).2.
Proof.
  intros w1.
  assert (Hrun : _restart_webshell E w = (_system E webshell_command ≫= λ _, mret VNone) w1).
  { unfold _restart_webshell. fold webshell_command.
    assert (Htry : try_except
              (pid ← read E "/var/run/webshell.pid"; pid ← py_int (python E) pid;
               kill E pid "SIGHUP";; wait 2) (λ _, mret tt) w = (Ok tt, w1)).
    { subst w1. unfold webshell_signalled, try_except, read, py_int, kill, wait.
      unfold mbind, M_bind, lift_sum, raise, mret, M_ret.
      destruct (read_file E (now w) "/var/run/webshell.pid") as [e|s]; [done|].
      destruct (PyStr.int (python E) s) as [e|pid]; [done|].
      destruct (os_kill E (log w) (now w) pid "SIGHUP"); simpl; [|done].
      by rewrite N.add_0_r. }
    erewrite bind_Ok; [|exact Htry]. reflexivity. }
  split_and!; [reflexivity | exact Hrun | |].
  - rewrite Hrun. unfold mbind, M_bind. rewrite _system_spec.
    by destruct (popen E (log w1) (now w1) webshell_command).
  - rewrite Hrun. unfold mbind, M_bind. rewrite _system_spec.
    destruct (popen E (log w1) (now w1) webshell_command); simpl;
      apply elem_of_app; right; by apply list_elem_of_singleton.
Qed.

(** X13. A resolution that ends in time is kept. When the rows that the
    datastore gives are distinct, a row with a service name and a boolean
    flag, whose lookup ends without error no later than 15 after [query]
    was called, holds in the end the state that the lookup resolves to
    (RUNNING, CRASHED or STOPPED, never UNKNOWN) and the pids found,
    whatever becomes of the other rows. *)
Theorem query_keeps_timely_statuses
    (E : environment) (filters : pyval) (options : option dict) (w : world) (r : rows)
    (entry : loc) (what : string) (b found : bool) (pids : list Z) (w1 : world) :
  let options' := <["suffix" := VStr "srv_"]> (default ∅ options) in
  let services := match r with Rows l => l | Row entry => [entry] end in
  let w0 := World (now w) (log w ++ [EvQuery filters options']) (heap w) in
  datastore_query E (log w) (now w) filters options' = inr r →
  NoDup services →
  entry ∈ services →
  heap w !! entry ≫= (.!! "service") = Some (VStr what) →
  heap w !! entry ≫= (.!! "enable") = Some (VBool b) →
  _started E what None w0 = (Ok (found, pids), w1) →
  now w1 ≤ now w + 150 →
  row_resolved (heap (query E filters options w).2) entry (resolve_state found b) pids ∧
  resolve_state found b ≠ "UNKNOWN".
Proof.
  intros options' services w0 Hds Hnodup Hin Hs He Hst Htime.
  split; [|by destruct found, b].
  apply list_elem_of_lookup in Hin as [i Hi].
  assert (Hj0 : joined w0 150 w0) by (split; [done|lia]).
  pose proof (joinall_spec E w0 150 services w0 Hj0) as (_ & Hlen & Hvals).
  destruct (joinall_resolved E w0 150 services w0 ltac:(done)) as (_ & _ & Hres).
  destruct (Hres Hnodup i entry what b found pids w1 Hi Hs He Hst Htime) as [Hvi Hrow].
  destruct (joinall E w0 150 services w0) as [values wj] eqn:Hjoin. simpl in *.
  destruct (map_result_keeps services entry values wj Hlen (λ i e Hi, proj1 (Hvals i e Hi)))
    as (h' & Hmap & Hkeep).
  { intros j Hj. assert (j = i) as -> by (by eapply NoDup_lookup). done. }
  assert (Hq : (query E filters options w).2 = World (now wj) (log wj) h').
  { unfold query. fold options'.
    unfold mbind at 1. unfold M_bind at 1. rewrite Hds. fold w0. fold services.
    unfold mbind at 1. unfold M_bind at 1. rewrite Hjoin.
    erewrite bind_Ok; [|exact Hmap].
    by destruct (filter_list E (VRef <$> services) filters options'). }
  rewrite Hq. unfold row_resolved in *. simpl. by rewrite Hkeep.
Qed.

Lemma query_keeps_timely_statuses_witness :
  row_resolved (heap (query Demo.env VNone None Demo.w0).2) 1%nat "RUNNING" [812; 813]%Z.
Proof.
  refine (proj1 (query_keeps_timely_statuses Demo.env VNone None Demo.w0 (Rows [0; 1]%nat)
                   1%nat "nfs" false true [812; 813]%Z nfs_looked_up _ _ _ _ _ _ _)).
  - reflexivity.
  - apply NoDup_cons. split; [|apply NoDup_singleton].
    intros H%list_elem_of_singleton. discriminate H.
  - apply elem_of_cons. right. by apply list_elem_of_singleton.
  - reflexivity.
  - reflexivity.
  - vm_compute. reflexivity.
  - vm_compute. discriminate.
Defined.
